(** * GitHub Actions test runner: commit-and-correlate pipeline

    A shallow embedding of [githubService.js] and [testRunController.js]
    (directory [github-actions-backend/src]).  Every [await]ed call of the
    JavaScript code (an axios request, a timer, a clock or a file read) is a
    node of a program tree whose continuation receives the reply; the
    in-memory [Map] [activeRuns] is threaded through the executor as a
    [gmap].  The remote platform is the environment: theorems quantify over
    every way it may answer, and a small executable model of it serves the
    concrete scenarios. *)

From Stdlib Require Import ZArith Lia Ascii String.
From stdpp Require Import base option strings list gmap pretty.

Local Open Scope Z_scope.
Local Open Scope string_scope.

(** ** JavaScript values that cross the boundary of the typed core *)

(** The fields of [req.body], the results of array destructuring and of
    optional chaining can be any JavaScript value; the code tests them for
    truthiness and [typeof] and prints them in template literals.
    [JNum n] is the Number read from the integer [n] of a JSON document,
    [JArray] an array of such values, and [JObject] a plain object, of
    which the code looks at no property. *)
#[warnings="-register-all"]
Inductive jsval : Type :=
| JUndefined
| JNull
| JBool (b : bool)
| JNum (n : Z)
| JStr (s : string)
| JArray (elements : list jsval)
| JObject.

#[global] Instance jsval_eq_dec : EqDecision jsval.
Proof.
  unfold EqDecision, Decision. fix go 1. intros x y.
  decide equality;
    try apply Z.eq_dec; try apply string_dec; try apply bool_dec.
  apply (List.list_eq_dec go).
Defined.

(** [ToBoolean]: what [!v] and [v || w] look at. *)
Definition truthy (v : jsval) : bool :=
  match v with
  | JUndefined | JNull => false
  | JBool b => b
  | JNum n => negb (n =? 0)%Z
  | JStr "" => false
  | JStr _ => true
  | JArray _ => true
  | JObject => true
  end.

Definition typeof (v : jsval) : string :=
  match v with
  | JUndefined => "undefined"
  | JNull | JArray _ | JObject => "object"
  | JBool _ => "boolean"
  | JNum _ => "number"
  | JStr _ => "string"
  end.

(** [l.join(sep)] *)
Fixpoint join (sep : string) (l : list string) : string :=
  match l with
  | [] => ""
  | [s] => s
  | s :: rest => s +:+ sep +:+ join sep rest
  end.

(** The Number that [JSON.parse] makes of a non-negative integer: the
    nearest double, ties to the even mantissa. *)
Definition to_double (n : Z) : Z :=
  if (n <? 2 ^ 53)%Z then n
  else
    let shift := Z.log2 n - 52 in
    let q := n / 2 ^ shift in
    let r := n mod 2 ^ shift in
    let half := 2 ^ (shift - 1) in
    let q' := if (half <? r)%Z || ((r =? half)%Z && Z.odd q) then q + 1 else q in
    q' * 2 ^ shift.

(** Whether the integer [v] is read back as the double [m], [2^53 <= m]. *)
Definition reads_as (m v : Z) : bool :=
  let e := Z.log2 m - 52 in
  let f := m / 2 ^ e in
  let up := 2 ^ e in
  let down := if (f =? 2 ^ 52)%Z then 2 ^ (e - 1) else 2 ^ e in
  if Z.even f
  then (2 * m - down <=? 2 * v)%Z && (2 * v <=? 2 * m + up)%Z
  else (2 * m - down <? 2 * v)%Z && (2 * v <? 2 * m + up)%Z.

(** The integer with the fewest significant digits that is read back as
    [m], the nearest to [m] of these. *)
Fixpoint shortest (zeros : nat) (m : Z) : Z :=
  match zeros with
  | O => m
  | S fewer =>
      let t := 10 ^ Z.of_nat zeros in
      let below := m / t * t in
      let above := below + t in
      let ok_below := (0 <? below)%Z && reads_as m below in
      let ok_above := reads_as m above in
      if ok_below && ok_above then
        if (m - below <? above - m)%Z then below
        else if (above - m <? m - below)%Z then above
        else if Z.even (below / t) then below else above
      else if ok_below then below
      else if ok_above then above
      else shortest fewer m
  end.

(** The digits without the zeros at their end. *)
Fixpoint strip_zeros (digits : string) : string :=
  match digits with
  | "" => ""
  | String c rest =>
      match strip_zeros rest with
      | "" => if bool_decide (c = "0"%char) then "" else String c ""
      | rest' => String c rest'
      end
  end.

(** [String(m)] for a Number [m] that is a non-negative integer. *)
Definition integer_text (m : Z) : string :=
  if (2 ^ 1024 <=? m)%Z then "Infinity"
  else
    let v :=
      if (m <? 2 ^ 53)%Z then m
      else shortest (String.length (pretty m)) m in
    let digits := pretty v in
    let n := Z.of_nat (String.length digits) in
    if (n <=? 21)%Z then digits
    else
      match strip_zeros digits with
      | "" => digits
      | String c "" => String c ("e+" +:+ pretty (n - 1))
      | String c rest => String c ("." +:+ rest +:+ "e+" +:+ pretty (n - 1))
      end.

(** [String(n)] for the Number read from the integer [n]. *)
Definition number_text (n : Z) : string :=
  if (n <? 0)%Z then "-" +:+ integer_text (to_double (- n))
  else integer_text (to_double n).

(** A value interpolated in a template literal [`${v}`].  An array prints
    its elements joined by commas, [null] and [undefined] among them as
    nothing. *)
Fixpoint to_template (v : jsval) : string :=
  match v with
  | JUndefined => "undefined"
  | JNull => "null"
  | JBool true => "true"
  | JBool false => "false"
  | JNum n => number_text n
  | JStr s => s
  | JArray elements =>
      join ","
        (map (fun element =>
                match element with
                | JUndefined | JNull => ""
                | _ => to_template element
                end)
           elements)
  | JObject => "[object Object]"
  end.

(** [a || b] on values. *)
Definition js_or (a b : jsval) : jsval := if truthy a then a else b.

(** [s || d] where [s] is a string and [d] the fallback. *)
Definition str_or (s d : string) : string :=
  match s with
  | "" => d
  | _ => s
  end.

(** A possibly-[null] string of a JSON document as a value. *)
Definition of_nullable (o : option string) : jsval :=
  match o with Some s => JStr s | None => JNull end.

(** [s.split(c)] for a one-character separator. *)
Fixpoint split_on (sep : ascii) (s : string) : list string :=
  match s with
  | EmptyString => [EmptyString]
  | String c rest =>
      if bool_decide (c = sep) then EmptyString :: split_on sep rest
      else match split_on sep rest with
           | [] => [String c EmptyString]
           | w :: ws => String c w :: ws
           end
  end.

(** [const [a, b] = l]: a missing position is [undefined]. *)
Definition destructure (l : list string) (i : nat) : jsval :=
  match l !! i with Some s => JStr s | None => JUndefined end.

(** ** Strings and their bytes

    A JavaScript string is a sequence of 16-bit code units.  A [string]
    holds it by the bytes of its UTF-8 form, and holds a surrogate code
    unit, which UTF-8 has no form for on its own, by the three bytes that
    the scheme of UTF-8 gives its number: [ED A0 80] for U+D800 up to
    [ED BF BF] for U+DFFF.  The code puts ASCII text between the strings
    it joins and splits strings at an ASCII character, which is on these
    bytes what it is on the code units. *)

Definition bytes_of (s : string) : list N :=
  map N_of_ascii (list_ascii_of_string s).

Definition is_continuation (b : N) : bool := ((128 <=? b) && (b <=? 191))%N.

(** The two bytes after [ED] of a high and of a low surrogate. *)
Definition is_high (b1 b2 : N) : bool :=
  ((160 <=? b1) && (b1 <=? 175))%N && is_continuation b2.

Definition is_low (b1 b2 : N) : bool :=
  ((176 <=? b1) && (b1 <=? 191))%N && is_continuation b2.

(** The code unit held by [ED b1 b2]. *)
Definition surrogate_unit (b1 b2 : N) : N :=
  (53248 + (b1 mod 64) * 64 + b2 mod 64)%N.

(** The four bytes of the code point of a surrogate pair. *)
Definition pair_bytes (high low : N) : list N :=
  let point := (65536 + (high - 55296) * 1024 + (low - 56320))%N in
  [ (240 + (point / 262144) mod 8)%N;
    (128 + (point / 4096) mod 64)%N;
    (128 + (point / 64) mod 64)%N;
    (128 + point mod 64)%N ].

(** U+FFFD, the replacement character. *)
Definition replacement : list N := [239; 191; 189]%N.

(** The UTF-8 form of a string held as above: a high surrogate followed
    by a low one is the code point of the pair, every other surrogate is
    replaced by U+FFFD, and all other bytes stay. *)
Fixpoint utf8 (bytes : list N) : list N :=
  match bytes with
  | [] => []
  | a :: rest =>
      match rest with
      | b1 :: b2 :: rest2 =>
          if (a =? 237)%N && is_high b1 b2 then
            match rest2 with
            | a' :: c1 :: c2 :: rest3 =>
                if (a' =? 237)%N && is_low c1 c2
                then (pair_bytes (surrogate_unit b1 b2) (surrogate_unit c1 c2)
                        ++ utf8 rest3)%list
                else (replacement ++ utf8 rest2)%list
            | _ => (replacement ++ utf8 rest2)%list
            end
          else if (a =? 237)%N && is_low b1 b2
          then (replacement ++ utf8 rest2)%list
          else a :: utf8 rest
      | _ => a :: utf8 rest
      end
  end.

(** [Buffer.from(s)] *)
Definition Buffer_from (s : string) : list N := utf8 (bytes_of s).

(** ** [Buffer.from(s).toString('base64')] *)

Definition b64_alphabet : list ascii :=
  list_ascii_of_string
    "ABCDEFGHIJKLMNOPQRSTUVWXYZabcdefghijklmnopqrstuvwxyz0123456789+/".

Definition b64_digit (n : N) : ascii :=
  nth (N.to_nat n) b64_alphabet "="%char.

Fixpoint b64_encode (bytes : list N) : string :=
  match bytes with
  | [] => ""
  | [a] =>
      String (b64_digit (N.shiftr a 2))
        (String (b64_digit (N.shiftl (N.land a 3) 4)) "==")
  | [a; b] =>
      String (b64_digit (N.shiftr a 2))
        (String (b64_digit (N.lor (N.shiftl (N.land a 3) 4) (N.shiftr b 4)))
           (String (b64_digit (N.shiftl (N.land b 15) 2)) "="))
  | a :: b :: c :: rest =>
      String (b64_digit (N.shiftr a 2))
        (String (b64_digit (N.lor (N.shiftl (N.land a 3) 4) (N.shiftr b 4)))
           (String (b64_digit (N.lor (N.shiftl (N.land b 15) 2) (N.shiftr c 6)))
              (String (b64_digit (N.land c 63)) (b64_encode rest))))
  end.

Definition base64 (s : string) : string := b64_encode (Buffer_from s).

(** ** Errors *)

(** A thrown JavaScript error object: the name of its class and its
    message.  The code base constructs errors with [new Error(...)] only. *)
Record js_error : Type := { err_name : string; err_message : string }.

#[global] Instance js_error_eq_dec : EqDecision js_error.
Proof. solve_decision. Defined.

Definition new_Error (message : string) : js_error :=
  {| err_name := "Error"; err_message := message |}.

(** What axios rejects with: an HTTP answer outside 2xx whose body can be
    read for a property ([error.response] is set; [data_message] is
    [error.response.data.message], absent when the body carries none); an
    HTTP answer outside 2xx whose body is [null] ([error.response.data] is
    [null]); or no answer at all ([error.message] only). *)
Inductive axios_error : Type :=
| HttpError (status : Z) (data_message : option string) (statusText : string)
| HttpNullBody (status : Z) (statusText : string)
| NoResponse (message : string).

Inductive axios (A : Type) : Type :=
| Resolved (data : A)
| Rejected (error : axios_error).
Arguments Resolved {A} data.
Arguments Rejected {A} error.

(** [error.response?.status] *)
Definition response_status (e : axios_error) : option Z :=
  match e with
  | HttpError st _ _ => Some st
  | HttpNullBody st _ => Some st
  | NoResponse _ => None
  end.

(** ** Documents exchanged with the remote platform *)

(** An entry of the [tree] array posted to [git/trees]. *)
Record tree_entry : Type :=
  { te_path : string; te_mode : string; te_type : string; te_sha : string }.

#[global] Instance tree_entry_eq_dec : EqDecision tree_entry.
Proof. solve_decision. Defined.

(** An element of [files]: [{path, content}]. *)
Record file_entry : Type := { file_path : string; file_content : string }.

(** The fields the code reads of a created repository. *)
Record api_repo : Type := { full_name : string; default_branch : string }.

(** A workflow run as the platform reports it (snake case, as on the
    wire).  [head_sha] is part of every run document although
    [getWorkflowRuns] and [getWorkflowRunById] do not copy it. *)
Record api_run : Type :=
  { run_id : Z;
    run_name : string;
    run_status : string;
    run_conclusion : option string;
    run_created_at : string;
    run_updated_at : string;
    run_html_url : string;
    run_number : Z;
    run_event : string;
    run_head_branch : string;
    run_head_sha : string }.

Record api_step : Type :=
  { step_name : string;
    step_status : string;
    step_conclusion : option string;
    step_number : Z }.

Record api_job : Type :=
  { job_id : Z;
    job_name : string;
    job_status : string;
    job_conclusion : option string;
    started_at : option string;
    completed_at : option string;
    steps : list api_step }.

(** ** Calls that leave the process *)

(** One constructor per call site; URL segments are the strings the
    template literals produce, JSON bodies keep their fields. *)
Inductive request : Type :=
| DateNow
| NewDateISO
| ReadFileSync (file : string)
| SetTimeout (ms : Z)
| PostUserRepos (repo_name : jsval) (description : string)
    (private auto_init : bool)
| GetRef (owner repo branch : string)
| GetCommit (owner repo sha : string)
| PostBlob (owner repo : string) (blob_content encoding : string)
| PostTree (owner repo : string) (base_tree : string) (tree : list tree_entry)
| PostCommit (owner repo : string) (message : string) (tree_sha : string)
    (parents : list string)
| PatchRef (owner repo branch : string) (sha : string) (force : bool)
| PostDispatch (owner repo workflow : string) (ref : string)
    (inputs : list (string * string))
| GetRuns (owner repo : string) (per_page : Z)
| GetRun (owner repo run : string)
| GetJobs (owner repo run : string)
| GetRunLogs (owner repo run : string)
| DeleteRepo (owner repo : string).

#[global] Instance request_eq_dec : EqDecision request.
Proof. solve_decision. Defined.

(** What each call hands back to the code. *)
Definition reply (r : request) : Type :=
  match r with
  | DateNow => Z
  | NewDateISO => string
  | ReadFileSync _ => (js_error + string)%type
  | SetTimeout _ => unit
  | PostUserRepos _ _ _ _ => axios api_repo
  | GetRef _ _ _ => axios string
  | GetCommit _ _ _ => axios string
  | PostBlob _ _ _ _ => axios string
  | PostTree _ _ _ _ => axios string
  | PostCommit _ _ _ _ _ => axios string
  | PatchRef _ _ _ _ _ => axios unit
  | PostDispatch _ _ _ _ _ => axios unit
  | GetRuns _ _ _ => axios (list api_run)
  | GetRun _ _ _ => axios api_run
  | GetJobs _ _ _ => axios (list api_job)
  | GetRunLogs _ _ _ => axios (option string)
  | DeleteRepo _ _ => axios unit
  end.

(** ** The run registry and the programs over it *)

(** A value of [activeRuns]: the object literal [runMetadata] of
    [createTestRun], with the two keys [getStatus] adds later
    ([undefined] until then). *)
Record metadata : Type :=
  { runId : string;
    owner : jsval;
    repo : jsval;
    repoFullName : string;
    workflowRunId : jsval;
    testName : jsval;
    createdAt : string;
    status : string;
    conclusion : jsval;
    updatedAt : jsval }.

#[global] Instance metadata_eq_dec : EqDecision metadata.
Proof. solve_decision. Defined.

(** The assignments [metadata.status = ...], [metadata.conclusion = ...]
    and [metadata.updatedAt = ...] of [getStatus]. *)
Definition set_status (v : string) (m : metadata) : metadata :=
  {| runId := runId m; owner := owner m; repo := repo m;
     repoFullName := repoFullName m; workflowRunId := workflowRunId m;
     testName := testName m; createdAt := createdAt m;
     status := v; conclusion := conclusion m; updatedAt := updatedAt m |}.

Definition set_conclusion (v : jsval) (m : metadata) : metadata :=
  {| runId := runId m; owner := owner m; repo := repo m;
     repoFullName := repoFullName m; workflowRunId := workflowRunId m;
     testName := testName m; createdAt := createdAt m;
     status := status m; conclusion := v; updatedAt := updatedAt m |}.

Definition set_updatedAt (v : jsval) (m : metadata) : metadata :=
  {| runId := runId m; owner := owner m; repo := repo m;
     repoFullName := repoFullName m; workflowRunId := workflowRunId m;
     testName := testName m; createdAt := createdAt m;
     status := status m; conclusion := conclusion m; updatedAt := v |}.

(** [this.activeRuns = new Map()] *)
Abbreviation registry := (gmap string metadata).

(** A computation of the service or of the controller.  [Call] suspends on
    a [request] until its reply arrives; the three [Map] nodes act on
    [activeRuns]; [Throw] is a raised exception.

    [Map.get] hands out the stored object itself and [getStatus] assigns
    to its fields before it calls [Map.set] with the same object.  The
    three assignments and the [set] are not separated by any [await], they
    overwrite the same three fields together, and no other code writes a
    field of a stored object: a lookup that returns the record and a [set]
    that stores the updated record leave the same [Map] behind, also when
    handlers overlap. *)
Inductive prog (A : Type) : Type :=
| Ret (a : A)
| Throw (e : js_error)
| MapGet (k : string) (cont : option metadata -> prog A)
| MapSet (k : string) (v : metadata) (cont : prog A)
| MapDelete (k : string) (cont : prog A)
| Call (r : request) (cont : reply r -> prog A).
Arguments Ret {A} a.
Arguments Throw {A} e.
Arguments MapGet {A} k cont.
Arguments MapSet {A} k v cont.
Arguments MapDelete {A} k cont.
Arguments Call {A} r cont.

Fixpoint bind {A B} (p : prog A) (f : A -> prog B) : prog B :=
  match p with
  | Ret a => f a
  | Throw e => Throw e
  | MapGet k cont => MapGet k (fun o => bind (cont o) f)
  | MapSet k v cont => MapSet k v (bind cont f)
  | MapDelete k cont => MapDelete k (bind cont f)
  | Call r cont => Call r (fun x => bind (cont x) f)
  end.

(** [try { p } catch (error) { handler(error) }] *)
Fixpoint try_catch {A} (p : prog A) (handler : js_error -> prog A) : prog A :=
  match p with
  | Ret a => Ret a
  | Throw e => handler e
  | MapGet k cont => MapGet k (fun o => try_catch (cont o) handler)
  | MapSet k v cont => MapSet k v (try_catch cont handler)
  | MapDelete k cont => MapDelete k (try_catch cont handler)
  | Call r cont => Call r (fun x => try_catch (cont x) handler)
  end.

(** [await] of one call. *)
Definition call (r : request) : prog (reply r) := Call r Ret.

#[global] Instance prog_ret : MRet prog := @Ret.
#[global] Instance prog_bind : MBind prog := fun A B f p => bind p f.

(** ** Executing a program against an environment *)

(** An environment with private state [S] answers every call.  Nothing is
    assumed of its answers: it stands for the platform, the network, the
    clock and whoever else talks to the platform meanwhile. *)
Record world (S : Type) : Type :=
  { answer : forall r : request, S -> reply r * S }.
Arguments answer {S} w r s.

(** A call together with the reply it received. *)
Record event : Type := Event { ev_request : request; ev_reply : reply ev_request }.

Record run_result (S A : Type) : Type :=
  { outcome : A + js_error;
    final_registry : registry;
    final_world : S;
    trace : list event }.
Arguments outcome {S A} r.
Arguments final_registry {S A} r.
Arguments final_world {S A} r.
Arguments trace {S A} r.

(** The calls made, in order. *)
Definition calls {S A} (res : run_result S A) : list request :=
  map ev_request (trace res).

Definition rejected {A} (x : axios A) : option axios_error :=
  match x with Rejected e => Some e | Resolved _ => None end.

(** The error a call to the platform was rejected with, if it was. *)
Definition rejection (ev : event) : option axios_error :=
  match ev with
  | Event r x =>
      match r return reply r -> option axios_error with
      | DateNow | NewDateISO | SetTimeout _ | ReadFileSync _ => fun _ => None
      | PostUserRepos _ _ _ _ => rejected
      | GetRef _ _ _ => rejected
      | GetCommit _ _ _ => rejected
      | PostBlob _ _ _ _ => rejected
      | PostTree _ _ _ _ => rejected
      | PostCommit _ _ _ _ _ => rejected
      | PatchRef _ _ _ _ _ => rejected
      | PostDispatch _ _ _ _ _ => rejected
      | GetRuns _ _ _ => rejected
      | GetRun _ _ _ => rejected
      | GetJobs _ _ _ => rejected
      | GetRunLogs _ _ _ => rejected
      | DeleteRepo _ _ => rejected
      end x
  end.

(** The list of runs a call returned, if it asked for one and got it. *)
Definition listed (ev : event) : option (list api_run) :=
  match ev with
  | Event r x =>
      match r return reply r -> option (list api_run) with
      | GetRuns _ _ _ =>
          fun x => match x with Resolved runs => Some runs | Rejected _ => None end
      | _ => fun _ => None
      end x
  end.

Definition after {S A} (t : list event) (res : run_result S A)
  : run_result S A :=
  {| outcome := outcome res;
     final_registry := final_registry res;
     final_world := final_world res;
     trace := t ++ trace res |}.

Fixpoint exec {S A} (W : world S) (p : prog A) (m : registry) (s : S)
  : run_result S A :=
  match p with
  | Ret a =>
      {| outcome := inl a; final_registry := m; final_world := s; trace := [] |}
  | Throw e =>
      {| outcome := inr e; final_registry := m; final_world := s; trace := [] |}
  | MapGet k cont => exec W (cont (m !! k)) m s
  | MapSet k v cont => exec W cont (<[k := v]> m) s
  | MapDelete k cont => exec W cont (delete k m) s
  | Call r cont =>
      let '(x, s') := answer W r s in
      after [Event r x] (exec W (cont x) m s')
  end.

(** ** [services/githubService.js] *)

(** The instance built by [new GitHubService()]: the constructor has
    already checked that both environment variables are set. *)
Record GitHubService : Type :=
  { token : string; githubUsername : string }.

(** What reading a property of [null] throws (the wording of V8). *)
Definition null_property (property : string) : js_error :=
  {| err_name := "TypeError";
     err_message :=
       "Cannot read properties of null (reading '" +:+ property +:+ "')" |}.

(** [handleError(error, message)], as every caller uses it: [throw
    this.handleError(error, message)].  The result is the error the caller
    throws: the [Error] that [handleError] returns or, when the answer's
    body is [null], the [TypeError] that the unguarded
    [error.response.data.message] raises inside [handleError]. *)
Definition handleError (error : axios_error) (message : string) : js_error :=
  match error with
  | HttpError _ data_message statusText =>
      new_Error (message +:+ ": " +:+ str_or (default "" data_message) statusText)
  | HttpNullBody _ _ => null_property "message"
  | NoResponse m => new_Error (message +:+ ": " +:+ m)
  end.

(** The rejections [handleError] wraps: all but an answer with a [null]
    body. *)
Definition has_body (error : axios_error) : bool :=
  match error with HttpNullBody _ _ => false | _ => true end.

(** An axios promise awaited inside [try { ... } catch (error) { throw
    this.handleError(error, message) }]. *)
Definition rethrow {A} (message : string) (x : axios A) : prog A :=
  match x with
  | Resolved data => Ret data
  | Rejected error => Throw (handleError error message)
  end.

(** What [createRepo] returns ([alreadyExists] is missing from the object
    of the first [return], which reads as [false]). *)
Record repo_result : Type :=
  { fullName : string; defaultBranch : string; alreadyExists : bool }.

(** [createRepo(repoName, isPrivate)] *)
Definition createRepo (svc : GitHubService) (repoName : jsval) (isPrivate : bool)
  : prog repo_result :=
  response ← call (PostUserRepos repoName
                     "Automated Selenium test execution repository"
                     isPrivate true);
  match response with
  | Resolved data =>
      Ret {| fullName := full_name data;
             defaultBranch := default_branch data;
             alreadyExists := false |}
  | Rejected error =>
      if bool_decide (response_status error = Some 422) then
        Ret {| fullName := githubUsername svc +:+ "/" +:+ to_template repoName;
               defaultBranch := "main";
               alreadyExists := true |}
      else Throw (handleError error "Failed to create repository")
  end.

(** The blob requests of [files.map(async (file) => ...)]: every one is
    sent before the first reply is looked at. *)
Fixpoint post_blobs (o r : string) (files : list file_entry)
  : prog (list (axios string)) :=
  match files with
  | [] => Ret []
  | file :: rest =>
      x ← call (PostBlob o r (base64 (file_content file)) "base64");
      xs ← post_blobs o r rest;
      Ret (x :: xs)
  end.

(** [Promise.all]: all the data, or the rejection that comes first.  The
    executor takes the replies in the order of the requests, so that here
    the first rejection in time is the first of the list; a platform that
    answers in another order makes [Promise.all] report another of the
    rejections.  The statements on [commitFiles] speak of a rejection
    among its calls and of what is thrown for it, never of which of
    several rejections it is. *)
Fixpoint promise_all {A} (l : list (axios A)) : axios (list A) :=
  match l with
  | [] => Resolved []
  | Rejected e :: _ => Rejected e
  | Resolved a :: rest =>
      match promise_all rest with
      | Resolved l' => Resolved (a :: l')
      | Rejected e => Rejected e
      end
  end.

Definition blob_entry (file : file_entry) (sha : string) : tree_entry :=
  {| te_path := file_path file;
     te_mode := "100644";
     te_type := "blob";
     te_sha := sha |}.

(** The blob requests of a commit with the replies they received. *)
Definition blob_events (o r : string) (files : list file_entry)
    (replies : list (axios string)) : list event :=
  zip_with
    (fun file x => Event (PostBlob o r (base64 (file_content file)) "base64") x)
    files replies.

Record commit_result : Type := { commitSha : string }.

(** [commitFiles(owner, repo, files, message, branch)] *)
Definition commitFiles (owner repo : jsval) (files : list file_entry)
    (message branch : string) : prog commit_result :=
  let o := to_template owner in
  let r := to_template repo in
  let failed := "Failed to commit files" in
  (* Step 1 *)
  latestCommitSha ← call (GetRef o r branch) ≫= rethrow failed;
  (* Step 2 *)
  baseTreeSha ← call (GetCommit o r latestCommitSha) ≫= rethrow failed;
  (* Step 3 *)
  replies ← post_blobs o r files;
  shas ← rethrow failed (promise_all replies);
  let blobs := zip_with blob_entry files shas in
  (* Step 4 *)
  treeSha ← call (PostTree o r baseTreeSha blobs) ≫= rethrow failed;
  (* Step 5 *)
  newCommitSha ←
    call (PostCommit o r message treeSha [latestCommitSha]) ≫= rethrow failed;
  (* Step 6 *)
  call (PatchRef o r branch newCommitSha false) ≫= rethrow failed;;
  Ret {| commitSha := newCommitSha |}.

(** [triggerWorkflow(owner, repo, workflowFileName, inputs, ref)] *)
Definition triggerWorkflow (owner repo : jsval) (workflowFileName : string)
    (inputs : list (string * string)) (ref : string) : prog unit :=
  let o := to_template owner in
  let r := to_template repo in
  call (SetTimeout 2000);;
  call (PostDispatch o r workflowFileName ref inputs)
    ≫= rethrow "Failed to trigger workflow";;
  call (SetTimeout 3000);;
  Ret tt.

(** The object [getWorkflowRuns] builds for each run. *)
Record run_summary : Type :=
  { rs_id : Z;
    rs_name : string;
    rs_status : string;
    rs_conclusion : option string;
    rs_createdAt : string;
    rs_updatedAt : string;
    rs_htmlUrl : string;
    rs_runNumber : Z }.

Definition summarize (run : api_run) : run_summary :=
  {| rs_id := run_id run;
     rs_name := run_name run;
     rs_status := run_status run;
     rs_conclusion := run_conclusion run;
     rs_createdAt := run_created_at run;
     rs_updatedAt := run_updated_at run;
     rs_htmlUrl := run_html_url run;
     rs_runNumber := run_number run |}.

(** [getWorkflowRuns(owner, repo, limit)], field [runs] of the result. *)
Definition getWorkflowRuns (owner repo : jsval) (limit : Z)
  : prog (list run_summary) :=
  workflow_runs ←
    call (GetRuns (to_template owner) (to_template repo) limit)
      ≫= rethrow "Failed to fetch workflow runs";
  Ret (map summarize workflow_runs).

(** The object [getWorkflowRunById] builds. *)
Record run_detail : Type :=
  { rd_summary : run_summary; rd_event : string; rd_headBranch : string }.

(** [getWorkflowRunById(owner, repo, runId)], field [run] of the result. *)
Definition getWorkflowRunById (owner repo runId : jsval) : prog run_detail :=
  run ←
    call (GetRun (to_template owner) (to_template repo) (to_template runId))
      ≫= rethrow "Failed to fetch workflow run";
  Ret {| rd_summary := summarize run;
         rd_event := run_event run;
         rd_headBranch := run_head_branch run |}.

Record logs_result : Type :=
  { jobs : list api_job; logDownloadUrl : jsval }.

(** [getWorkflowLogs(owner, repo, runId)]: the inner [try] turns a failed
    log request into [logUrl = null]; a 302 without [location] header
    leaves [undefined]. *)
Definition getWorkflowLogs (owner repo runId : jsval) : prog logs_result :=
  let o := to_template owner in
  let r := to_template repo in
  let i := to_template runId in
  js ← call (GetJobs o r i) ≫= rethrow "Failed to fetch workflow logs";
  logResponse ← call (GetRunLogs o r i);
  let logUrl :=
    match logResponse with
    | Resolved (Some location) => JStr location
    | Resolved None => JUndefined
    | Rejected _ => JNull
    end in
  Ret {| jobs := js; logDownloadUrl := logUrl |}.

(** [deleteRepo(owner, repo)] *)
Definition deleteRepo (owner repo : jsval) : prog unit :=
  call (DeleteRepo (to_template owner) (to_template repo))
    ≫= rethrow "Failed to delete repository".

(** ** [controllers/testRunController.js] *)

(** [req.body] of [POST /api/create-test-run], as [express.json()] leaves
    it: an object whose three keys may hold anything or be missing
    ([JUndefined]). *)
Record create_body : Type :=
  { testScript : jsval; body_testName : jsval; body_repoName : jsval }.

(** The JSON documents the handlers send. *)
Inductive json_body : Type :=
| ErrorBody (error : string)
| CreatedBody (runId : string) (workflowRunId : jsval)
    (repository repoUrl : string) (workflowUrl : jsval)
    (status message : string)
| StatusBody (runId : string) (workflowRunId : jsval) (status : string)
    (conclusion : jsval) (workflowUrl : string) (createdAt : string)
    (updatedAt : jsval)
| LogsBody (runId : string) (workflowRunId : jsval) (jobs : list api_job)
    (logDownloadUrl : jsval) (workflowUrl : string)
| DeletedBody (message : string).

(** [res.status(code).json(body)] *)
Record http_response : Type := { http_status : Z; http_body : json_body }.

Definition respond (code : Z) (b : json_body) : prog http_response :=
  Ret {| http_status := code; http_body := b |}.

(** The [catch] block shared by the handlers. *)
Definition respond_500 (fallback : string) (error : js_error)
  : prog http_response :=
  respond 500 (ErrorBody (str_or (err_message error) fallback)).

(** [path.join(__dirname, '../config/workflow-template.yml')], relative to
    the backend's [src] directory. *)
Definition workflowPath : string := "config/workflow-template.yml".

(** [fs.readFileSync(path, 'utf-8')] *)
Definition readFileSync (file : string) : prog string :=
  x ← call (ReadFileSync file);
  match x with inl e => Throw e | inr text => Ret text end.

(** [createTestRun(req, res)] *)
Definition createTestRun (svc : GitHubService) (body : create_body)
  : prog http_response :=
  try_catch
    (let testName :=
       match body_testName body with
       | JUndefined => JStr "selenium-test"
       | v => v
       end in
     let repoName := body_repoName body in
     (* Validate input *)
     if negb (truthy (testScript body))
        || negb (bool_decide (typeof (testScript body) = "string"))
     then respond 400 (ErrorBody "testScript is required and must be a string")
     else
       timestamp ← call DateNow;
       let runId := "test-run-" +:+ pretty timestamp in
       let finalRepoName :=
         js_or repoName (JStr ("selenium-test-" +:+ pretty timestamp)) in
       (* Step 1: Create repository *)
       repoResult ← createRepo svc finalRepoName true;
       let parts := split_on "/" (fullName repoResult) in
       let owner := destructure parts 0 in
       let repo := destructure parts 1 in
       (* Step 2: Load workflow template *)
       workflowContent ← readFileSync workflowPath;
       (* Step 3: Prepare files to commit ([testScript] is a string past
          the validation, and [to_template] leaves strings as they are) *)
       let files :=
         [ {| file_path := "test_script.py";
              file_content := to_template (testScript body) |};
           {| file_path := ".github/workflows/selenium-test.yml";
              file_content := workflowContent |} ] in
       (* Step 4: Commit files *)
       commitFiles owner repo files
         ("Add Selenium test script for run " +:+ runId) "main";;
       (* Step 5: Trigger workflow *)
       triggerWorkflow owner repo "selenium-test.yml"
         [("test_id", runId)] "main";;
       (* Step 6: Get the workflow run ID *)
       runs ← getWorkflowRuns owner repo 1;
       let latestRun := head runs in
       let latestId :=
         match latestRun with
         | Some run => JNum (rs_id run)
         | None => JUndefined
         end in
       let latestUrl :=
         match latestRun with
         | Some run => JStr (rs_htmlUrl run)
         | None => JUndefined
         end in
       (* Store run metadata *)
       now ← call NewDateISO;
       let runMetadata :=
         {| runId := runId;
            owner := owner;
            repo := repo;
            repoFullName := fullName repoResult;
            workflowRunId := latestId;
            testName := testName;
            createdAt := now;
            status := "queued";
            conclusion := JUndefined;
            updatedAt := JUndefined |} in
       MapSet runId runMetadata
         (respond 201
            (CreatedBody runId latestId (fullName repoResult)
               ("https://github.com/" +:+ fullName repoResult)
               latestUrl "queued"
               "Test run created and workflow triggered successfully")))
    (respond_500 "Failed to create test run").

(** The [404] every handler keyed by [:runId] answers for a key that
    [activeRuns] does not hold. *)
Definition not_found : prog http_response :=
  respond 404 (ErrorBody "Test run not found").

(** [getStatus(req, res)], [runId] being [req.params.runId]. *)
Definition getStatus (runId : string) : prog http_response :=
  try_catch
    (MapGet runId (fun found =>
       match found with
       | None => not_found
       | Some metadata =>
           (* Fetch current workflow status from GitHub *)
           run ← getWorkflowRunById (owner metadata) (repo metadata)
                   (workflowRunId metadata);
           let status := rs_status (rd_summary run) in
           let conclusion := of_nullable (rs_conclusion (rd_summary run)) in
           (* Update stored metadata *)
           now ← call NewDateISO;
           let metadata' :=
             set_updatedAt (JStr now)
               (set_conclusion conclusion (set_status status metadata)) in
           MapSet runId metadata'
             (respond 200
                (StatusBody runId (workflowRunId metadata) status conclusion
                   (rs_htmlUrl (rd_summary run)) (createdAt metadata)
                   (JStr now)))
       end))
    (respond_500 "Failed to fetch test run status").

(** [getLogs(req, res)] *)
Definition getLogs (runId : string) : prog http_response :=
  try_catch
    (MapGet runId (fun found =>
       match found with
       | None => not_found
       | Some metadata =>
           logsResult ← getWorkflowLogs (owner metadata) (repo metadata)
                          (workflowRunId metadata);
           respond 200
             (LogsBody runId (workflowRunId metadata) (jobs logsResult)
                (logDownloadUrl logsResult)
                ("https://github.com/" +:+ to_template (owner metadata)
                   +:+ "/" +:+ to_template (repo metadata)
                   +:+ "/actions/runs/"
                   +:+ to_template (workflowRunId metadata)))
       end))
    (respond_500 "Failed to fetch test run logs").

(** [deleteRun(req, res)] *)
Definition deleteRun (runId : string) : prog http_response :=
  try_catch
    (MapGet runId (fun found =>
       match found with
       | None => not_found
       | Some metadata =>
           (* Delete repository *)
           deleteRepo (owner metadata) (repo metadata);;
           (* Remove from active runs *)
           MapDelete runId
             (respond 200
                (DeletedBody "Test run and repository deleted successfully"))
       end))
    (respond_500 "Failed to delete test run").

(** ** Two handlers in flight

    Express starts a handler per request, and a handler runs until its next
    [await] of a timer or of the network; the clock and the file system are
    read without yielding.  [advance] runs a handler up to its next
    suspension point.  A [step] of a handler either starts it or hands it
    the reply it is suspended on; [interleave] lets a schedule pick which of
    two handlers takes the next step ([true]: the first), and lets the first
    and then the second run to their end once the schedule is used up. *)

Definition is_async (r : request) : bool :=
  match r with
  | DateNow | NewDateISO | ReadFileSync _ => false
  | _ => true
  end.

Fixpoint advance {S A} (W : world S) (p : prog A) (m : registry) (s : S)
  : prog A * registry * S * list event :=
  match p with
  | MapGet k cont => advance W (cont (m !! k)) m s
  | MapSet k v cont => advance W cont (<[k := v]> m) s
  | MapDelete k cont => advance W cont (delete k m) s
  | Call r cont =>
      if is_async r then (p, m, s, [])
      else
        let '(x, s') := answer W r s in
        let '(p', m', s'', t) := advance W (cont x) m s' in
        (p', m', s'', Event r x :: t)
  | _ => (p, m, s, [])
  end.

Definition step {S A} (W : world S) (p : prog A) (m : registry) (s : S)
  : prog A * registry * S * list event :=
  match p with
  | Call r cont =>
      if is_async r then
        let '(x, s') := answer W r s in
        let '(p', m', s'', t) := advance W (cont x) m s' in
        (p', m', s'', Event r x :: t)
      else advance W p m s
  | _ => advance W p m s
  end.

(** What two handlers in flight leave behind: both outcomes, the calls of
    each, and the shared registry and environment. *)
Record joint_result (S A : Type) : Type :=
  { outcome1 : A + js_error;
    outcome2 : A + js_error;
    trace1 : list event;
    trace2 : list event;
    joint_registry : registry;
    joint_world : S }.
Arguments outcome1 {S A} j.
Arguments outcome2 {S A} j.
Arguments trace1 {S A} j.
Arguments trace2 {S A} j.
Arguments joint_registry {S A} j.
Arguments joint_world {S A} j.

Fixpoint scheduled {S A} (W : world S) (schedule : list bool)
    (p1 p2 : prog A) (t1 t2 : list event) (m : registry) (s : S)
  : joint_result S A :=
  match schedule with
  | [] =>
      let r1 := exec W p1 m s in
      let r2 := exec W p2 (final_registry r1) (final_world r1) in
      {| outcome1 := outcome r1; outcome2 := outcome r2;
         trace1 := t1 ++ trace r1; trace2 := t2 ++ trace r2;
         joint_registry := final_registry r2;
         joint_world := final_world r2 |}
  | true :: rest =>
      let '(p1', m', s', t) := step W p1 m s in
      scheduled W rest p1' p2 (t1 ++ t) t2 m' s'
  | false :: rest =>
      let '(p2', m', s', t) := step W p2 m s in
      scheduled W rest p1 p2' t1 (t2 ++ t) m' s'
  end.

Definition interleave {S A} (W : world S) (schedule : list bool)
    (p1 p2 : prog A) (m : registry) (s : S) : joint_result S A :=
  scheduled W schedule p1 p2 [] [] m s.

(** ** An executable model of the environment

    The platform is not part of the repository; this model follows the
    contract of its REST interface as far as the code relies on it: git
    objects and references with fast-forward-only updates unless forced,
    partial tree updates over a base tree, workflow dispatches that turn
    into runs after a delay, repositories that can be deleted once.  Object
    names come from a counter (the properties below do not depend on
    content addressing) and instants are counts of milliseconds. *)

Inductive git_object : Type :=
| Blob (base64_content : string)
| Tree (entries : gmap string tree_entry)
| Commit (tree : string) (parents : list string) (message : string).

(** A dispatch the platform has accepted and not yet turned into a run. *)
Record queued_run : Type :=
  { q_repo : string;
    q_workflow : string;
    q_branch : string;
    q_sha : string;
    q_ready_at : Z }.

Record sim : Type :=
  { sim_user : string;
    sim_latency : Z;
    sim_template : js_error + string;
    sim_clock : Z;
    sim_next : Z;
    sim_repos : gset string;
    sim_refs : gmap (string * string) string;
    sim_objects : gmap string git_object;
    sim_runs : gmap string (list api_run);
    sim_queue : list queued_run }.

Definition with_clock (v : Z) (s : sim) : sim :=
  {| sim_user := sim_user s; sim_latency := sim_latency s;
     sim_template := sim_template s; sim_clock := v; sim_next := sim_next s;
     sim_repos := sim_repos s; sim_refs := sim_refs s;
     sim_objects := sim_objects s; sim_runs := sim_runs s;
     sim_queue := sim_queue s |}.

Definition with_next (v : Z) (s : sim) : sim :=
  {| sim_user := sim_user s; sim_latency := sim_latency s;
     sim_template := sim_template s; sim_clock := sim_clock s; sim_next := v;
     sim_repos := sim_repos s; sim_refs := sim_refs s;
     sim_objects := sim_objects s; sim_runs := sim_runs s;
     sim_queue := sim_queue s |}.

Definition with_repos (v : gset string) (s : sim) : sim :=
  {| sim_user := sim_user s; sim_latency := sim_latency s;
     sim_template := sim_template s; sim_clock := sim_clock s;
     sim_next := sim_next s; sim_repos := v; sim_refs := sim_refs s;
     sim_objects := sim_objects s; sim_runs := sim_runs s;
     sim_queue := sim_queue s |}.

Definition with_refs (v : gmap (string * string) string) (s : sim) : sim :=
  {| sim_user := sim_user s; sim_latency := sim_latency s;
     sim_template := sim_template s; sim_clock := sim_clock s;
     sim_next := sim_next s; sim_repos := sim_repos s; sim_refs := v;
     sim_objects := sim_objects s; sim_runs := sim_runs s;
     sim_queue := sim_queue s |}.

Definition with_objects (v : gmap string git_object) (s : sim) : sim :=
  {| sim_user := sim_user s; sim_latency := sim_latency s;
     sim_template := sim_template s; sim_clock := sim_clock s;
     sim_next := sim_next s; sim_repos := sim_repos s; sim_refs := sim_refs s;
     sim_objects := v; sim_runs := sim_runs s; sim_queue := sim_queue s |}.

Definition with_runs (v : gmap string (list api_run)) (s : sim) : sim :=
  {| sim_user := sim_user s; sim_latency := sim_latency s;
     sim_template := sim_template s; sim_clock := sim_clock s;
     sim_next := sim_next s; sim_repos := sim_repos s; sim_refs := sim_refs s;
     sim_objects := sim_objects s; sim_runs := v; sim_queue := sim_queue s |}.

Definition with_queue (v : list queued_run) (s : sim) : sim :=
  {| sim_user := sim_user s; sim_latency := sim_latency s;
     sim_template := sim_template s; sim_clock := sim_clock s;
     sim_next := sim_next s; sim_repos := sim_repos s; sim_refs := sim_refs s;
     sim_objects := sim_objects s; sim_runs := sim_runs s; sim_queue := v |}.

(** Store a new object under a fresh name. *)
Definition store (o : git_object) (s : sim) : string * sim :=
  let sha := "obj" +:+ pretty (sim_next s) in
  (sha, with_next (sim_next s + 1)
          (with_objects (<[sha := o]> (sim_objects s)) s)).

(** [a] is [b] or one of its ancestors, searching at most [fuel]
    generations. *)
Fixpoint reaches (objects : gmap string git_object) (fuel : nat)
    (a b : string) : bool :=
  bool_decide (a = b) ||
  match fuel with
  | O => false
  | S fuel' =>
      match objects !! b with
      | Some (Commit _ parents _) =>
          existsb (reaches objects fuel' a) parents
      | _ => false
      end
  end.

Definition fast_forward (s : sim) (old new : string) : bool :=
  reaches (sim_objects s) (size (sim_objects s)) old new.

Definition tree_of (s : sim) (commit : string) : option string :=
  match sim_objects s !! commit with
  | Some (Commit t _ _) => Some t
  | _ => None
  end.

Definition entries_of (s : sim) (tree : string)
  : option (gmap string tree_entry) :=
  match sim_objects s !! tree with
  | Some (Tree es) => Some es
  | _ => None
  end.

(** The file at [file] in the tree of the commit [branch] points to. *)
Definition file_at (s : sim) (full branch file : string)
  : option tree_entry :=
  c ← sim_refs s !! (full, branch);
  t ← tree_of s c;
  es ← entries_of s t;
  es !! file.

Definition is_commit (s : sim) (sha : string) : bool :=
  bool_decide (is_Some (tree_of s sha)).

(** A partial tree update: the posted entries replace or extend those of
    the base tree, everything else is kept. *)
Definition overlay (base : gmap string tree_entry) (posted : list tree_entry)
  : gmap string tree_entry :=
  foldl (fun acc e => <[te_path e := e]> acc) base posted.

Definition instant (t : Z) : string := "t" +:+ pretty t.

Definition start_run (s : sim) (q : queued_run) : sim :=
  let earlier := default [] (sim_runs s !! q_repo q) in
  let run :=
    {| run_id := sim_next s;
       run_name := q_workflow q;
       run_status := "queued";
       run_conclusion := None;
       run_created_at := instant (q_ready_at q);
       run_updated_at := instant (q_ready_at q);
       run_html_url :=
         "https://github.com/" +:+ q_repo q +:+ "/actions/runs/"
           +:+ pretty (sim_next s);
       run_number := Z.of_nat (length earlier) + 1;
       run_event := "workflow_dispatch";
       run_head_branch := q_branch q;
       run_head_sha := q_sha q |} in
  with_next (sim_next s + 1)
    (with_runs (<[q_repo q := run :: earlier]> (sim_runs s)) s).

(** Dispatches whose delay has elapsed become runs, oldest first. *)
Definition settle (s : sim) : sim :=
  let due := filter (fun q => q_ready_at q <= sim_clock s) (sim_queue s) in
  let waiting := filter (fun q => sim_clock s < q_ready_at q) (sim_queue s) in
  foldl start_run (with_queue waiting s) due.

(** A round trip to the platform takes this long. *)
Definition round_trip : Z := 150.

Definition tick (ms : Z) (s : sim) : sim :=
  settle (with_clock (sim_clock s + ms) s).

Definition http {A} (code : Z) (message statusText : string) : axios A :=
  Rejected (HttpError code (Some message) statusText).

Definition http_404 {A} : axios A := http 404 "Not Found" "Not Found".
Definition http_422 {A} (message : string) : axios A :=
  http 422 message "Unprocessable Entity".

Definition full (o r : string) : string := o +:+ "/" +:+ r.

Definition find_run (s : sim) (o r run : string) : option api_run :=
  if bool_decide (full o r ∈ sim_repos s) then
    head (filter (fun x => pretty (run_id x) = run)
            (default [] (sim_runs s !! full o r)))
  else None.

(** [POST /user/repos] with [auto_init]: a first commit holding a README
    on branch [main]. *)
Definition create_repo (name : string) (s : sim) : axios api_repo * sim :=
  let fname := full (sim_user s) name in
  if bool_decide (name = "") then (http_422 "Repository creation failed.", s)
  else if bool_decide (fname ∈ sim_repos s)
  then (http_422 "Repository creation failed.", s)
  else
    let '(b, s1) := store (Blob (base64 ("# " +:+ name))) s in
    let readme :=
      {| te_path := "README.md"; te_mode := "100644";
         te_type := "blob"; te_sha := b |} in
    let '(t, s2) := store (Tree {[ "README.md" := readme ]}) s1 in
    let '(c, s3) := store (Commit t [] "Initial commit") s2 in
    (Resolved {| full_name := fname; default_branch := "main" |},
     with_refs (<[(fname, "main") := c]> (sim_refs s3))
       (with_runs (delete fname (sim_runs s3))
          (with_repos ({[ fname ]} ∪ sim_repos s3) s3))).

(** [PATCH /repos/o/r/git/refs/heads/b] *)
Definition update_ref (o r b sha : string) (force : bool) (s : sim)
  : axios unit * sim :=
  match sim_refs s !! (full o r, b) with
  | None => (http_422 "Reference does not exist", s)
  | Some old =>
      if negb (is_commit s sha) then (http_422 "Object does not exist", s)
      else if force || fast_forward s old sha
      then (Resolved tt, with_refs (<[(full o r, b) := sha]> (sim_refs s)) s)
      else (http_422 "Update is not a fast forward", s)
  end.

(** [POST /repos/o/r/actions/workflows/w/dispatches] *)
Definition dispatch (o r w ref : string) (s : sim) : axios unit * sim :=
  match sim_refs s !! (full o r, ref) with
  | None => (http_422 ("No ref found for: " +:+ ref), s)
  | Some c =>
      match file_at s (full o r) ref (".github/workflows/" +:+ w) with
      | None => (http_404, s)
      | Some _ =>
          (Resolved tt,
           with_queue
             (sim_queue s ++
                [ {| q_repo := full o r; q_workflow := w; q_branch := ref;
                     q_sha := c;
                     q_ready_at := sim_clock s + sim_latency s |} ]) s)
      end
  end.

(** A request for a repository that is gone (or never was) is a 404. *)
Definition in_repo {A} (o r : string) (s : sim) (k : axios A * sim)
  : axios A * sim :=
  if bool_decide (full o r ∈ sim_repos s) then k else (http_404, s).

Definition sim_remote (r : request) (s : sim) : reply r * sim :=
  match r return reply r * sim with
  | DateNow => (sim_clock s, s)
  | NewDateISO => (instant (sim_clock s), s)
  | ReadFileSync _ => (sim_template s, s)
  | SetTimeout _ => (tt, s)
  | PostUserRepos (JStr n) _ _ _ => create_repo n s
  | PostUserRepos _ _ _ _ => (http_422 "Repository creation failed.", s)
  | GetRef o r b =>
      in_repo o r s
        (match sim_refs s !! (full o r, b) with
         | Some c => (Resolved c, s)
         | None => (http_404, s)
         end)
  | GetCommit o r c =>
      in_repo o r s
        (match tree_of s c with
         | Some t => (Resolved t, s)
         | None => (http_404, s)
         end)
  | PostBlob o r c _ =>
      in_repo o r s (let '(sha, s') := store (Blob c) s in (Resolved sha, s'))
  | PostTree o r base posted =>
      in_repo o r s
        (match entries_of s base with
         | Some es =>
             let '(sha, s') := store (Tree (overlay es posted)) s in
             (Resolved sha, s')
         | None => (http_422 "base_tree is not a valid tree oid", s)
         end)
  | PostCommit o r msg t parents =>
      in_repo o r s
        (if bool_decide (is_Some (entries_of s t))
            && forallb (is_commit s) parents
         then let '(sha, s') := store (Commit t parents msg) s in
              (Resolved sha, s')
         else (http_422 "Tree or parent does not exist", s))
  | PatchRef o r b sha force => in_repo o r s (update_ref o r b sha force s)
  | PostDispatch o r w ref _ => in_repo o r s (dispatch o r w ref s)
  | GetRuns o r n =>
      in_repo o r s
        (Resolved (take (Z.to_nat n) (default [] (sim_runs s !! full o r))), s)
  | GetRun o r run =>
      (match find_run s o r run with
       | Some x => Resolved x
       | None => http_404
       end, s)
  | GetJobs o r run =>
      (match find_run s o r run with
       | Some _ => Resolved []
       | None => http_404
       end, s)
  | GetRunLogs o r run =>
      (match find_run s o r run with
       | Some x =>
           if bool_decide (run_status x = "completed")
           then Resolved (Some (run_html_url x +:+ "/logs.zip"))
           else http_404
       | None => http_404
       end, s)
  | DeleteRepo o r =>
      in_repo o r s
        (Resolved tt, with_repos (sim_repos s ∖ {[ full o r ]}) s)
  end.

(** Time passes while a timer runs or a request travels; the clock and
    the disk are read on the spot. *)
Definition elapsed (r : request) : Z :=
  match r with
  | DateNow | NewDateISO | ReadFileSync _ => 0
  | SetTimeout ms => ms
  | _ => round_trip
  end.

Definition platform : world sim :=
  {| answer := fun r s => sim_remote r (tick (elapsed r) s) |}.

(** Events on the platform that no call of this program causes. *)

(** Somebody re-runs a workflow run from the web interface: the run keeps
    its id, is queued again and has no conclusion any more. *)
Definition rerun (full_name : string) (run : Z) (s : sim) : sim :=
  with_runs
    (alter (map (fun x =>
              if bool_decide (run_id x = run) then
                {| run_id := run_id x; run_name := run_name x;
                   run_status := "queued"; run_conclusion := None;
                   run_created_at := run_created_at x;
                   run_updated_at := instant (sim_clock s);
                   run_html_url := run_html_url x;
                   run_number := run_number x; run_event := run_event x;
                   run_head_branch := run_head_branch x;
                   run_head_sha := run_head_sha x |}
              else x)) full_name (sim_runs s)) s.

(** A runner finishes a run. *)
Definition finish (full_name : string) (run : Z) (result : string) (s : sim)
  : sim :=
  with_runs
    (alter (map (fun x =>
              if bool_decide (run_id x = run) then
                {| run_id := run_id x; run_name := run_name x;
                   run_status := "completed"; run_conclusion := Some result;
                   run_created_at := run_created_at x;
                   run_updated_at := instant (sim_clock s);
                   run_html_url := run_html_url x;
                   run_number := run_number x; run_event := run_event x;
                   run_head_branch := run_head_branch x;
                   run_head_sha := run_head_sha x |}
              else x)) full_name (sim_runs s)) s.

(** A fresh account on a platform whose runs appear [latency] ms after
    their dispatch. *)
Definition fresh (user : string) (latency : Z) : sim :=
  {| sim_user := user; sim_latency := latency;
     sim_template := inr "on: workflow_dispatch";
     sim_clock := 1700000000000; sim_next := 1;
     sim_repos := ∅; sim_refs := ∅; sim_objects := ∅;
     sim_runs := ∅; sim_queue := [] |}.


(** ** Observations on executions *)

(** The six calls of the commit pipeline. *)
Definition git_call (r : request) : bool :=
  match r with
  | GetRef _ _ _ | GetCommit _ _ _ | PostBlob _ _ _ _ | PostTree _ _ _ _
  | PostCommit _ _ _ _ _ | PatchRef _ _ _ _ _ => true
  | _ => false
  end.

Definition is_ref_update (r : request) : bool :=
  match r with PatchRef _ _ _ _ _ => true | _ => false end.

Definition is_run_listing (r : request) : bool :=
  match r with GetRuns _ _ _ => true | _ => false end.

(** [runs[0]?.id] and [runs[0]?.htmlUrl] on the platform's list. *)
Definition first_run_id (runs : list api_run) : jsval :=
  match runs with
  | [] => JUndefined
  | run :: _ => JNum (run_id run)
  end.

Definition first_run_url (runs : list api_run) : jsval :=
  match runs with
  | [] => JUndefined
  | run :: _ => JStr (run_html_url run)
  end.

(** The name of the commit object an execution created. *)
Definition created_commit (ev : event) : option string :=
  match ev with
  | Event r x =>
      match r return reply r -> option string with
      | PostCommit _ _ _ _ _ =>
          fun x => match x with Resolved c => Some c | Rejected _ => None end
      | _ => fun _ => None
      end x
  end.

Definition commit_of (t : list event) : option string :=
  head (omap created_commit t).

(** [n] refreshes of the same run in a row. *)
Fixpoint refreshes {S} (W : world S) (n : nat) (runId : string)
    (m : registry) (s : S) : registry * S :=
  match n with
  | O => (m, s)
  | S n' =>
      let res := exec W (getStatus runId) m s in
      refreshes W n' runId (final_registry res) (final_world res)
  end.

(** ** Scenarios on the model *)

Definition alice : GitHubService :=
  {| token := "ghp_example"; githubUsername := "alice" |}.

Definition submission (script : string) (repoName : jsval) : create_body :=
  {| testScript := JStr script;
     body_testName := JUndefined;
     body_repoName := repoName |}.

(** Two submissions, one after the other, to the same repository of a
    platform that needs four seconds to turn a dispatch into a run. *)
Definition slow_first : run_result sim http_response :=
  exec platform (createTestRun alice (submission "print(1)" (JStr "suite")))
    ∅ (fresh "alice" 4000).

Definition slow_second : run_result sim http_response :=
  exec platform (createTestRun alice (submission "print(2)" (JStr "suite")))
    (final_registry slow_first) (final_world slow_first).

(** One submission to a platform that needs one second. *)
Definition created : run_result sim http_response :=
  exec platform (createTestRun alice (submission "print(1)" (JStr "suite")))
    ∅ (fresh "alice" 1000).

Definition created_id : string := "test-run-1700000000000".

(** The run finishes, the status is refreshed, somebody re-runs the run,
    the status is refreshed again. *)
Definition refreshed_done : run_result sim http_response :=
  exec platform (getStatus created_id) (final_registry created)
    (finish "alice/suite" 8 "success" (final_world created)).

Definition refreshed_again : run_result sim http_response :=
  exec platform (getStatus created_id) (final_registry refreshed_done)
    (rerun "alice/suite" 8 (final_world refreshed_done)).




(** Two writers commit to the same branch: the first resolves the head,
    the second commits and moves the branch, the first goes on. *)
Definition seeded : sim := snd (create_repo "suite" (fresh "alice" 1000)).

Definition commit_a : prog commit_result :=
  commitFiles (JStr "alice") (JStr "suite")
    [ {| file_path := "a.py"; file_content := "A" |} ] "commit A" "main".



Definition committed : run_result sim commit_result :=
  exec platform commit_a ∅ seeded.

(** Two submissions to the same repository overlap: the second arrives
    after the first has committed, and both dispatch before either lists
    the runs. *)
Definition crossed : joint_result sim http_response :=
  interleave platform
    (replicate 9 true ++ replicate 9 false ++ [true; true; false; false])%list
    (createTestRun alice (submission "print(1)" (JStr "suite")))
    (createTestRun alice (submission "print(2)" (JStr "suite")))
    ∅ (fresh "alice" 1000).

(** Two submissions arrive within the same millisecond. *)
Definition same_instant : joint_result sim http_response :=
  interleave platform [true; false]
    (createTestRun alice (submission "print(1)" JUndefined))
    (createTestRun alice (submission "print(2)" (JStr "suite")))
    ∅ (fresh "alice" 1000).


(** The run of [slow_first], as the platform lists it once started. *)
Definition late_run : api_run :=
  {| run_id := 10;
     run_name := "selenium-test.yml";
     run_status := "queued";
     run_conclusion := None;
     run_created_at := "t1700000007350";
     run_updated_at := "t1700000007350";
     run_html_url := "https://github.com/alice/suite/actions/runs/10";
     run_number := 1;
     run_event := "workflow_dispatch";
     run_head_branch := "main";
     run_head_sha := "obj7" |}.

(** The run of [created], as the platform reports it after the re-run. *)
Definition requeued_run : api_run :=
  {| run_id := 8;
     run_name := "selenium-test.yml";
     run_status := "queued";
     run_conclusion := None;
     run_created_at := "t1700000004350";
     run_updated_at := "t1700000006650";
     run_html_url := "https://github.com/alice/suite/actions/runs/8";
     run_number := 1;
     run_event := "workflow_dispatch";
     run_head_branch := "main";
     run_head_sha := "obj7" |}.

(** The registry entry of [created] after the refresh that saw the run
    completed. *)
Definition finished_record : metadata :=
  {| runId := created_id;
     owner := JStr "alice";
     repo := JStr "suite";
     repoFullName := "alice/suite";
     workflowRunId := JNum 8;
     testName := JStr "selenium-test";
     createdAt := "t1700000006500";
     status := "completed";
     conclusion := JStr "success";
     updatedAt := JStr "t1700000006650" |}.

(** ** The handlers the routes leave out or serve without a call *)

(** What calling a property that holds no function throws. *)
Definition not_a_function (callee : string) : js_error :=
  {| err_name := "TypeError";
     err_message := callee +:+ " is not a function" |}.

(** [getArtifacts(req, res)].  [GitHubService] defines no method
    [getWorkflowArtifacts]: for a registered run the call expression
    throws before anything is awaited, and the [catch] block answers. *)
Definition getArtifacts (runId : string) : prog http_response :=
  try_catch
    (MapGet runId (fun found =>
       match found with
       | None => not_found
       | Some metadata =>
           Throw (not_a_function "this.githubService.getWorkflowArtifacts")
       end))
    (respond_500 "Failed to fetch artifacts").

(** An element of [runs] in the answer of [listRuns]. *)
Record run_row : Type :=
  { row_runId : string;
    row_workflowRunId : jsval;
    row_repository : string;
    row_status : string;
    row_conclusion : jsval;
    row_createdAt : string;
    row_updatedAt : jsval }.

Definition row_of (run : metadata) : run_row :=
  {| row_runId := runId run;
     row_workflowRunId := workflowRunId run;
     row_repository := repoFullName run;
     row_status := status run;
     row_conclusion := conclusion run;
     row_createdAt := createdAt run;
     row_updatedAt := updatedAt run |}.

(** [{ success: true, data: { runs, count } }] with its status. *)
Record runs_response : Type :=
  { runs_status : Z; runs_rows : list run_row; runs_count : Z }.

(** [listRuns(req, res)] on [Array.from(this.activeRuns.values())].  It
    awaits nothing, and mapping stored objects to rows cannot throw: its
    [catch] block is never entered. *)
Definition listRuns (values : list metadata) : runs_response :=
  let runs := map row_of values in
  {| runs_status := 200;
     runs_rows := runs;
     runs_count := Z.of_nat (length runs) |}.

(** ** [Map] with its insertion order

    [activeRuns.values()] iterates in the order of first insertion: a
    [set] on a key already there keeps the key's place, a [set] on a new
    key appends, [delete] removes. *)

Abbreviation entries := (list (string * metadata)).

Fixpoint map_get (k : string) (l : entries) : option metadata :=
  match l with
  | [] => None
  | (k', v) :: rest => if bool_decide (k = k') then Some v else map_get k rest
  end.

Fixpoint map_set (k : string) (v : metadata) (l : entries) : entries :=
  match l with
  | [] => [(k, v)]
  | (k', v') :: rest =>
      if bool_decide (k = k') then (k, v) :: rest
      else (k', v') :: map_set k v rest
  end.

Fixpoint map_delete (k : string) (l : entries) : entries :=
  match l with
  | [] => []
  | (k', v') :: rest =>
      if bool_decide (k = k') then rest else (k', v') :: map_delete k rest
  end.

Definition map_values (l : entries) : list metadata := l.*2.

(** The executor of [exec], on the ordered [Map]. *)
Record ordered_result (S A : Type) : Type :=
  { o_outcome : A + js_error;
    o_entries : entries;
    o_world : S;
    o_trace : list event }.
Arguments o_outcome {S A} _.
Arguments o_entries {S A} _.
Arguments o_world {S A} _.
Arguments o_trace {S A} _.

Fixpoint exec_ordered {S A} (W : world S) (p : prog A) (l : entries) (s : S)
  : ordered_result S A :=
  match p with
  | Ret a => {| o_outcome := inl a; o_entries := l; o_world := s; o_trace := [] |}
  | Throw e => {| o_outcome := inr e; o_entries := l; o_world := s; o_trace := [] |}
  | MapGet k cont => exec_ordered W (cont (map_get k l)) l s
  | MapSet k v cont => exec_ordered W cont (map_set k v l) s
  | MapDelete k cont => exec_ordered W cont (map_delete k l) s
  | Call r cont =>
      let '(x, s') := answer W r s in
      let res := exec_ordered W (cont x) l s' in
      {| o_outcome := o_outcome res; o_entries := o_entries res;
         o_world := o_world res; o_trace := Event r x :: o_trace res |}
  end.

(** ** Reading base64 back *)

Definition b64_value (c : ascii) : N :=
  match list_find (fun d => d = c) b64_alphabet with
  | Some (i, _) => N.of_nat i
  | None => 0
  end.

(** The bytes of a padded base64 text. *)
Fixpoint b64_decode_chars (l : list ascii) : list N :=
  match l with
  | c0 :: c1 :: c2 :: c3 :: rest =>
      let v0 := b64_value c0 in
      let v1 := b64_value c1 in
      let v2 := b64_value c2 in
      let v3 := b64_value c3 in
      let b0 := N.lor (N.shiftl v0 2) (N.shiftr v1 4) in
      let b1 := N.lor (N.shiftl (N.land v1 15) 4) (N.shiftr v2 2) in
      let b2 := N.lor (N.shiftl (N.land v2 3) 6) v3 in
      if bool_decide (c2 = "="%char) then [b0]
      else if bool_decide (c3 = "="%char) then [b0; b1]
      else b0 :: b1 :: b2 :: b64_decode_chars rest
  | _ => []
  end.

Definition b64_decode (s : string) : list N :=
  b64_decode_chars (list_ascii_of_string s).

(** [Buffer.from(text, 'base64').toString()] *)
Definition unbase64 (s : string) : string :=
  string_of_list_ascii (map ascii_of_N (b64_decode s)).

(** ** Footprints *)

(** Every request the program can come to make, whatever the answers to
    the earlier ones and whatever the [Map] holds, is an allowed one. *)
Fixpoint only_calls {A} (allowed : request -> bool) (p : prog A) : Prop :=
  match p with
  | Ret _ | Throw _ => True
  | MapGet _ cont => forall found, only_calls allowed (cont found)
  | MapSet _ _ cont => only_calls allowed cont
  | MapDelete _ cont => only_calls allowed cont
  | Call r cont => allowed r = true /\ forall x, only_calls allowed (cont x)
  end.

(** The calls [createTestRun] is made of. *)
Definition creation_call (r : request) : bool :=
  match r with
  | DateNow | NewDateISO | ReadFileSync _ | SetTimeout _
  | PostUserRepos _ _ _ _ | PostDispatch _ _ _ _ _ | GetRuns _ _ _ => true
  | r => git_call r
  end.

(** The requests that change something on the platform. *)
Definition writes (r : request) : bool :=
  match r with
  | PostUserRepos _ _ _ _ | PostBlob _ _ _ _ | PostTree _ _ _ _
  | PostCommit _ _ _ _ _ | PatchRef _ _ _ _ _ | PostDispatch _ _ _ _ _
  | DeleteRepo _ _ => true
  | _ => false
  end.

(** What a caller of the service can rely on when a method throws: a
    plain [Error] whose message is [text], a colon and a detail; or, and
    only when one of the method's requests was rejected with an answer
    whose body is [null], the [TypeError] of reading the message of
    [null]. *)
Definition wrapped {S A} (text : string) (res : run_result S A) : Prop :=
  match outcome res with
  | inl _ => True
  | inr e =>
      (err_name e = "Error"
       /\ exists detail, err_message e = text +:+ ": " +:+ detail)
      \/ (e = {| err_name := "TypeError";
                 err_message :=
                   "Cannot read properties of null (reading 'message')" |}
          /\ exists status statusText,
               In (Some (HttpNullBody status statusText))
                 (map rejection (trace res)))
  end.


(** [s.includes(c)] *)
Fixpoint includes (c : ascii) (s : string) : bool :=
  match s with
  | EmptyString => false
  | String c' rest => bool_decide (c' = c) || includes c rest
  end.

(** ** Further scenarios *)

(** The registry entry of [slow_first]: registered without a run. *)
Definition unresolved_record : metadata :=
  {| runId := created_id;
     owner := JStr "alice";
     repo := JStr "suite";
     repoFullName := "alice/suite";
     workflowRunId := JUndefined;
     testName := JStr "selenium-test";
     createdAt := "t1700000006500";
     status := "queued";
     conclusion := JUndefined;
     updatedAt := JUndefined |}.

(** The registry entry of [created]. *)
Definition queued_record : metadata :=
  {| runId := created_id;
     owner := JStr "alice";
     repo := JStr "suite";
     repoFullName := "alice/suite";
     workflowRunId := JNum 8;
     testName := JStr "selenium-test";
     createdAt := "t1700000006500";
     status := "queued";
     conclusion := JUndefined;
     updatedAt := JUndefined |}.

(** A host whose workflow template cannot be read. *)
Definition no_template : sim :=
  {| sim_user := "alice"; sim_latency := 1000;
     sim_template :=
       inl {| err_name := "Error";
              err_message :=
                "ENOENT: no such file or directory, open 'config/workflow-template.yml'" |};
     sim_clock := 1700000000000; sim_next := 1;
     sim_repos := ∅; sim_refs := ∅; sim_objects := ∅;
     sim_runs := ∅; sim_queue := [] |}.

Definition creation_without_template : run_result sim http_response :=
  exec platform (createTestRun alice (submission "print(1)" (JStr "suite")))
    ∅ no_template.

(** ** [routes/testRuns.js]

    The five routes of the router.  ([getArtifacts] has no route.) *)
Inductive api_request : Type :=
| ApiCreateTestRun (body : create_body)  (* POST /api/create-test-run *)
| ApiStatus (runId : string)             (* GET /api/status/:runId *)
| ApiLogs (runId : string)               (* GET /api/logs/:runId *)
| ApiRuns                                (* GET /api/runs *)
| ApiDeleteRun (runId : string).         (* DELETE /api/runs/:runId *)

Inductive api_response : Type :=
| Json (r : http_response)
| RunList (r : runs_response)
| Uncaught (e : js_error).

(** One request, handled to its end by the controller the router holds. *)
Definition route {S} (W : world S) (svc : GitHubService) (req : api_request)
    (l : entries) (s : S) : api_response * entries * S :=
  let handled (p : prog http_response) :=
    let res := exec_ordered W p l s in
    (match o_outcome res with inl r => Json r | inr e => Uncaught e end,
     o_entries res, o_world res) in
  match req with
  | ApiCreateTestRun body => handled (createTestRun svc body)
  | ApiStatus runId => handled (getStatus runId)
  | ApiLogs runId => handled (getLogs runId)
  | ApiRuns => (RunList (listRuns (map_values l)), l, s)
  | ApiDeleteRun runId => handled (deleteRun runId)
  end.

(** Requests handled one after the other. *)
Fixpoint session {S} (W : world S) (svc : GitHubService)
    (reqs : list api_request) (l : entries) (s : S)
  : list api_response * entries * S :=
  match reqs with
  | [] => ([], l, s)
  | req :: rest =>
      let '(a, l', s') := route W svc req l s in
      let '(answers, l'', s'') := session W svc rest l' s' in
      (a :: answers, l'', s'')
  end.

(** Every entry is stored under its own run id, and no key twice. *)
Definition well_keyed (l : entries) : Prop :=
  NoDup l.*1 /\ Forall (fun e => runId e.2 = e.1) l.

(** Two runs created one after the other. *)
Definition two_runs : list api_response * entries * sim :=
  session platform alice
    [ApiCreateTestRun (submission "print(1)" (JStr "suite"));
     ApiCreateTestRun (submission "print(2)" JUndefined)]
    [] (fresh "alice" 1000).

(** The platform when the answer to a request for one run was sent at
    [sent] and reaches the program later: such a request is answered as
    [sent] answers it, every other request as the platform does now. *)
Definition run_answered_at (sent : sim) : world sim :=
  {| answer := fun r =>
       match r return sim -> reply r * sim with
       | GetRun o rp run =>
           fun s => ((answer platform (GetRun o rp run) sent).1, s)
       | r' => fun s => answer platform r' s
       end |}.

(** A refresh and a deletion of the same run overlap: both start, the
    deletion is confirmed and answered, and then the answer to the
    refresh's request arrives. *)
Definition refreshed_during_deletion : joint_result sim http_response :=
  interleave (run_answered_at (final_world created))
    [true; false; false; true]
    (getStatus created_id) (deleteRun created_id)
    (final_registry created) (final_world created).

(** Two submissions, one after the other, for a repository whose name
    holds a slash. *)
Definition slashed_first : run_result sim http_response :=
  exec platform
    (createTestRun alice (submission "print(1)" (JStr "tests/smoke")))
    ∅ (fresh "alice" 1000).

Definition slashed_second : run_result sim http_response :=
  exec platform
    (createTestRun alice (submission "print(2)" (JStr "tests/smoke")))
    (final_registry slashed_first) (final_world slashed_first).

(** Two unpaired surrogates, U+D800 and U+D801, as strings of their own. *)
Definition high_surrogate : string :=
  String "237" (String "160" (String "128" "")).

Definition other_surrogate : string :=
  String "237" (String "160" (String "129" "")).

(** One commit of three files, the last of which holds an unpaired
    surrogate. *)
Definition commit_files : prog commit_result :=
  commitFiles (JStr "alice") (JStr "suite")
    [ {| file_path := "a.py"; file_content := "A" |};
      {| file_path := "b.py"; file_content := "BC" |};
      {| file_path := "odd.txt"; file_content := high_surrogate |} ]
    "commit three" "main".

Definition committed_files : run_result sim commit_result :=
  exec platform commit_files ∅ seeded.

(** * Properties *)

(** ** Executions of composed programs *)

Section Execution.
Context {S : Type} (W : world S).

Lemma after_nil {A} (r : run_result S A) : after [] r = r.
Proof. by destruct r. Qed.

Lemma after_after {A} t1 t2 (r : run_result S A) :
  after t1 (after t2 r) = after (t1 ++ t2) r.
Proof. unfold after; simpl. by rewrite app_assoc. Qed.

(** Sequencing: the second program starts where the first one stopped,
    unless the first one threw. *)
Lemma exec_bind {A B} (p : prog A) (f : A -> prog B) m s :
  exec W (p ≫= f) m s =
    match outcome (exec W p m s) with
    | inl a =>
        after (trace (exec W p m s))
          (exec W (f a) (final_registry (exec W p m s))
             (final_world (exec W p m s)))
    | inr e =>
        {| outcome := inr e;
           final_registry := final_registry (exec W p m s);
           final_world := final_world (exec W p m s);
           trace := trace (exec W p m s) |}
    end.
Proof.
  change (p ≫= f) with (bind p f).
  revert m s; induction p as [a|e|k cont IH|k v cont IH|k cont IH|r cont IH];
    intros m s; simpl; auto.
  - by rewrite after_nil.
  - destruct (answer W r s) as [x s']. rewrite IH. simpl.
    destruct (outcome (exec W (cont x) m s')); [|done].
    by rewrite after_after.
Qed.

(** A [try] block made of a first step and the rest: the handler takes
    over from whichever of the two throws. *)
Lemma exec_try_catch_bind {A B} (p : prog A) (k : A -> prog B) h m s :
  exec W (try_catch (p ≫= k) h) m s =
    match outcome (exec W p m s) with
    | inl a =>
        after (trace (exec W p m s))
          (exec W (try_catch (k a) h) (final_registry (exec W p m s))
             (final_world (exec W p m s)))
    | inr e =>
        after (trace (exec W p m s))
          (exec W (h e) (final_registry (exec W p m s))
             (final_world (exec W p m s)))
    end.
Proof.
  change (p ≫= k) with (bind p k).
  revert m s; induction p as [a|e|k' cont IH|k' v cont IH|k' cont IH|r cont IH];
    intros m s; simpl; auto.
  - by rewrite after_nil.
  - by rewrite after_nil.
  - destruct (answer W r s) as [x s']. rewrite IH. simpl.
    destruct (outcome (exec W (cont x) m s')); by rewrite after_after.
Qed.
End Execution.

(** ** Events *)

Lemma git_call_no_listing ev :
  git_call (ev_request ev) = true -> is_run_listing (ev_request ev) = false.
Proof. by destruct ev as [[] x]. Qed.

Lemma no_listing_not_listed ev :
  is_run_listing (ev_request ev) = false -> listed ev = None.
Proof. by destruct ev as [[] x]. Qed.

Lemma listed_is_listing ev runs :
  listed ev = Some runs -> is_run_listing (ev_request ev) = true.
Proof. by destruct ev as [[] x]. Qed.

Lemma filter_no_listing (l : list event) :
  Forall (fun ev => is_run_listing (ev_request ev) = false) l ->
  List.filter is_run_listing (map ev_request l) = [].
Proof.
  induction 1 as [|ev l Hev _ IH]; [done|]. cbn. by rewrite Hev.
Qed.

(** ** [handleError] *)

(** Unless the rejected answer has a [null] body, the error thrown is a
    plain [Error] whose message starts with the caller's text. *)
Lemma handleError_message e message :
  has_body e = true ->
  exists detail,
    handleError e message = new_Error (message +:+ ": " +:+ detail).
Proof. destruct e; cbn; eauto; discriminate. Qed.

Lemma handleError_name e message :
  has_body e = true -> err_name (handleError e message) = "Error".
Proof. by destruct e. Qed.

(** An answer with a [null] body makes [handleError] itself fail. *)
Lemma handleError_null_body st text message :
  handleError (HttpNullBody st text) message
  = {| err_name := "TypeError";
       err_message := "Cannot read properties of null (reading 'message')" |}.
Proof. reflexivity. Qed.

(** The message of the error thrown is never empty, so the [catch] block
    of a handler answers with it and not with its fallback. *)
Lemma handleError_answered e c message fallback :
  str_or (err_message (handleError e (String c message))) fallback
  = err_message (handleError e (String c message)).
Proof. by destruct e. Qed.

(** ** [Promise.all] over the blob requests *)

Lemma promise_all_resolved {A} (l : list (axios A)) (data : list A) :
  promise_all l = Resolved data -> l = map Resolved data.
Proof.
  revert data; induction l as [|[a|e] l IH]; intros data H; simpl in H.
  - by inversion H.
  - destruct (promise_all l) as [l'|e]; [|done].
    inversion H; subst. simpl. f_equal. by apply IH.
  - done.
Qed.

Lemma promise_all_rejected {A} (l : list (axios A)) (e : axios_error) :
  promise_all l = Rejected e -> In (Rejected e) l.
Proof.
  induction l as [|[a|e'] l IH]; intros H; simpl in H.
  - done.
  - destruct (promise_all l) as [l'|e'']; [done|].
    inversion H; subst. right. by apply IH.
  - inversion H; subst. by left.
Qed.

Lemma blob_events_git o r files replies :
  Forall (fun ev => git_call (ev_request ev) = true
                    /\ is_ref_update (ev_request ev) = false)
    (blob_events o r files replies).
Proof.
  unfold blob_events. revert replies.
  induction files as [|f files IH]; intros [|x replies]; cbn; auto.
Qed.

Lemma blob_events_rejected o r files replies e :
  length replies = length files ->
  In (Rejected e) replies ->
  In (Some e) (map rejection (blob_events o r files replies)).
Proof.
  unfold blob_events. revert replies.
  induction files as [|f files IH]; intros [|x replies] Hl Hin; cbn in *;
    try done.
  destruct Hin as [->|Hin]; [by left|right]. apply IH; auto.
Qed.

Lemma blob_entries_paths files shas :
  length shas = length files ->
  map te_path (zip_with blob_entry files shas) = map file_path files.
Proof.
  revert shas; induction files as [|f files IH]; intros [|x shas] Hl;
    cbn in *; try done.
  f_equal. apply IH. lia.
Qed.

Lemma blob_entries_kind files shas :
  Forall (fun e => te_mode e = "100644" /\ te_type e = "blob")
    (zip_with blob_entry files shas).
Proof.
  revert shas; induction files as [|f files IH]; intros [|x shas]; cbn; auto.
Qed.

(** ** The commit pipeline, step by step *)

Section Pipeline.
Context {S : Type} (W : world S).

(** Every blob request is sent and answered, whatever the answers. *)
Lemma exec_post_blobs o r files m s :
  exists replies,
    outcome (exec W (post_blobs o r files) m s) = inl replies
    /\ final_registry (exec W (post_blobs o r files) m s) = m
    /\ trace (exec W (post_blobs o r files) m s)
       = blob_events o r files replies
    /\ length replies = length files.
Proof.
  revert s; induction files as [|file files IH]; intros s.
  - by exists [].
  - cbn. destruct (answer W _ s) as [x s1]. cbn.
    change (bind (post_blobs o r files) ?f) with (post_blobs o r files ≫= f).
    rewrite exec_bind. destruct (IH s1) as (replies & Ho & Hm & Ht & Hl).
    rewrite Ho. cbn. rewrite Hm, Ht.
    exists (x :: replies). rewrite app_nil_r. repeat split; cbn; auto.
Qed.

Variables (owner repo : jsval) (files : list file_entry)
          (message branch : string) (m : registry) (s : S).

Let o := to_template owner.
Let r := to_template repo.
Let res := exec W (commitFiles owner repo files message branch) m s.

(** An execution of [commitFiles] either stops at a rejected call before
    step 6, or goes through the six steps in order and ends with the
    reference update, whose reply decides the outcome. *)
Lemma commitFiles_run :
  final_registry res = m
  /\ Forall (fun ev => git_call (ev_request ev) = true) (trace res)
  /\ ((exists e,
         outcome res = inr (handleError e "Failed to commit files")
         /\ In (Some e) (map rejection (trace res))
         /\ Forall (fun ev => is_ref_update (ev_request ev) = false)
              (trace res))
      \/ (exists latest base shas tree c x,
            length shas = length files
            /\ trace res =
                 ([Event (GetRef o r branch) (Resolved latest);
                   Event (GetCommit o r latest) (Resolved base)]
                  ++ blob_events o r files (map Resolved shas)
                  ++ [Event (PostTree o r base (zip_with blob_entry files shas))
                        (Resolved tree);
                      Event (PostCommit o r message tree [latest])
                        (Resolved c);
                      Event (PatchRef o r branch c false) x])%list
            /\ outcome res =
                 match x with
                 | Resolved _ => inl {| commitSha := c |}
                 | Rejected e => inr (handleError e "Failed to commit files")
                 end)).
Proof.
  subst res o r. unfold commitFiles. cbn.
  destruct (answer W _ s) as [[latest|e] s1]; cbn;
    [|split_and!; auto; left; exists e; cbn; auto].
  destruct (answer W _ s1) as [[base|e] s2]; cbn;
    [|split_and!; auto; left; exists e; cbn; auto 6].
  rewrite exec_bind.
  destruct (exec_post_blobs (to_template owner) (to_template repo) files m s2)
    as (replies & Ho & Hm & Ht & Hl).
  rewrite Ho. cbn. rewrite Hm, Ht.
  pose proof (blob_events_git (to_template owner) (to_template repo)
                files replies) as Hgit.
  destruct (promise_all replies) as [shas|e] eqn:Hall; cbn.
  2:{ apply promise_all_rejected in Hall.
      split_and!; auto.
      - rewrite app_nil_r. repeat constructor.
        eapply Forall_impl; [exact Hgit|]. by intros ? [? ?].
      - left. exists e. rewrite app_nil_r. split_and!; auto.
        + right; right. by apply blob_events_rejected.
        + repeat constructor. eapply Forall_impl; [exact Hgit|].
          by intros ? [? ?]. }
  apply promise_all_resolved in Hall. subst replies.
  rewrite length_map in Hl.
  assert (Hgit' : Forall (fun ev => git_call (ev_request ev) = true)
            (blob_events (to_template owner) (to_template repo) files
               (map Resolved shas))).
  { eapply Forall_impl; [exact Hgit|]. by intros ? [? ?]. }
  assert (Hnoref : Forall (fun ev => is_ref_update (ev_request ev) = false)
            (blob_events (to_template owner) (to_template repo) files
               (map Resolved shas))).
  { eapply Forall_impl; [exact Hgit|]. by intros ? [? ?]. }
  destruct (answer W _ (final_world _)) as [[tree|e] s3]; cbn.
  2:{ split_and!; auto.
      - repeat constructor. apply Forall_app; split; auto.
      - left. exists e. split_and!; auto.
        + right; right. rewrite map_app. apply in_or_app. right. by left.
        + repeat constructor. apply Forall_app; split; auto. }
  destruct (answer W _ s3) as [[c|e] s4]; cbn.
  2:{ split_and!; auto.
      - repeat constructor. apply Forall_app; split; auto.
      - left. exists e. split_and!; auto.
        + right; right. rewrite map_app. apply in_or_app. right.
          right. by left.
        + repeat constructor. apply Forall_app; split; auto. }
  destruct (answer W _ s4) as [x s5]; cbn.
  split_and!.
  - by destruct x.
  - destruct x; cbn; repeat constructor; apply Forall_app; split; auto.
  - right. exists latest, base, shas, tree, c, x. split_and!; auto.
    + by destruct x.
    + by destruct x.
Qed.

Lemma commitFiles_summary :
  final_registry res = m
  /\ Forall (fun ev => is_run_listing (ev_request ev) = false) (trace res)
  /\ ((exists c, outcome res = inl {| commitSha := c |})
      \/ (exists e,
            outcome res = inr (handleError e "Failed to commit files"))).
Proof.
  destruct commitFiles_run
    as (Hm & Hg & [(e & Ho & _)|(latest & base & shas & tree & c & x & _ & _ & Ho)]).
  - split_and!; eauto.
    eapply Forall_impl; [exact Hg|]. apply git_call_no_listing.
  - split_and!; auto.
    + eapply Forall_impl; [exact Hg|]. apply git_call_no_listing.
    + destruct x as [u|e]; eauto.
Qed.
End Pipeline.

(** ** The handlers *)

(** Goals on the events of a trace put together from smaller ones. *)
Ltac trace_facts :=
  repeat first
    [ assumption
    | rewrite app_nil_r
    | apply Forall_app; split
    | constructor; [done|]
    | constructor ].

Section Handlers.
Context {S : Type} (W : world S).

Lemma createRepo_summary svc repoName isPrivate m s :
  let res := exec W (createRepo svc repoName isPrivate) m s in
  final_registry res = m
  /\ Forall (fun ev => is_run_listing (ev_request ev) = false) (trace res)
  /\ ((exists result, outcome res = inl result)
      \/ (exists e,
            outcome res = inr (handleError e "Failed to create repository"))).
Proof.
  cbn. destruct (answer W _ s) as [[data|e] s1]; cbn.
  - split_and!; eauto.
  - destruct (bool_decide _); cbn; split_and!; eauto.
Qed.

Lemma triggerWorkflow_summary owner repo file inputs ref m s :
  let res := exec W (triggerWorkflow owner repo file inputs ref) m s in
  final_registry res = m
  /\ Forall (fun ev => is_run_listing (ev_request ev) = false) (trace res)
  /\ ((outcome res = inl tt
       /\ trace res =
            [Event (SetTimeout 2000) tt;
             Event (PostDispatch (to_template owner) (to_template repo)
                      file ref inputs) (Resolved tt);
             Event (SetTimeout 3000) tt])
      \/ (exists e,
            outcome res = inr (handleError e "Failed to trigger workflow"))).
Proof.
  cbn. destruct (answer W _ s) as [[] s1]; cbn.
  destruct (answer W _ s1) as [[[]|e] s2]; cbn.
  - destruct (answer W _ s2) as [[] s3]; cbn. split_and!; eauto 6.
  - split_and!; eauto.
Qed.

Local Opaque commitFiles createRepo triggerWorkflow.

(** The two ways [createTestRun] can end: an error answer that leaves the
    registry alone and has seen no list of runs; or the answer 201, after
    exactly one listing of the runs at the very end, with a new registry
    entry whose [workflowRunId] is that of the first run listed. *)
Lemma createTestRun_run svc body m s :
  let res := exec W (createTestRun svc body) m s in
  (exists code msg,
      (code = 400 \/ code = 500)
      /\ outcome res
         = inl {| http_status := code; http_body := ErrorBody msg |}
      /\ final_registry res = m
      /\ Forall (fun ev => listed ev = None) (trace res))
  \/ (exists t prefix runs now md,
        trace res =
          (Event DateNow t :: prefix ++
             [Event (SetTimeout 2000) tt;
              Event (PostDispatch (to_template (owner md))
                       (to_template (repo md)) "selenium-test.yml" "main"
                       [("test_id", runId md)]) (Resolved tt);
              Event (SetTimeout 3000) tt;
              Event (GetRuns (to_template (owner md))
                       (to_template (repo md)) 1)
                (Resolved runs);
              Event NewDateISO now])%list
        /\ Forall (fun ev => is_run_listing (ev_request ev) = false) prefix
        /\ outcome res =
             inl {| http_status := 201;
                    http_body :=
                      CreatedBody (runId md) (workflowRunId md)
                        (repoFullName md)
                        ("https://github.com/" +:+ repoFullName md)
                        (first_run_url runs) "queued"
                        "Test run created and workflow triggered successfully" |}
        /\ final_registry res = <[runId md := md]> m
        /\ runId md = "test-run-" +:+ pretty t
        /\ workflowRunId md = first_run_id runs
        /\ status md = "queued"
        /\ conclusion md = JUndefined).
Proof.
  unfold createTestRun. cbv zeta.
  destruct (negb (truthy (testScript body)) || _) eqn:Hvalid.
  { left. exists 400, "testScript is required and must be a string".
    cbn. split_and!; auto. }
  cbn.
  destruct (answer W _ s) as [t s1]; cbn.
  rewrite exec_try_catch_bind.
  match goal with |- context [exec W (createRepo ?a ?b ?c) m s1] =>
    destruct (createRepo_summary a b c m s1) as (Hm1 & Hl1 & Ho1);
    set (r1 := exec W (createRepo a b c) m s1) in *
  end.
  assert (Hn1 : Forall (fun ev => listed ev = None) (trace r1)).
  { eapply Forall_impl; [exact Hl1|]. apply no_listing_not_listed. }
  destruct Ho1 as [[rr Ho1]|[e Ho1]]; rewrite Ho1; cbn.
  2:{ left. unfold respond_500.
      rewrite (handleError_answered e _ _ _). cbn. eexists 500, _. split_and!; eauto. trace_facts. }
  destruct (answer W _ (final_world r1)) as [[e|text] s2]; cbn.
  { left. rewrite Hm1. eexists 500, _. split_and!; eauto. trace_facts. }
  rewrite exec_try_catch_bind.
  match goal with |- context [exec W (commitFiles ?a ?b ?c ?d ?e) ?m' s2] =>
    destruct (commitFiles_summary W a b c d e m' s2) as (Hm2 & Hl2 & Ho2);
    set (r2 := exec W (commitFiles a b c d e) m' s2) in *
  end.
  assert (Hn2 : Forall (fun ev => listed ev = None) (trace r2)).
  { eapply Forall_impl; [exact Hl2|]. apply no_listing_not_listed. }
  destruct Ho2 as [[c Ho2]|[e Ho2]]; rewrite Ho2; cbn.
  2:{ left. unfold respond_500.
      rewrite (handleError_answered e _ _ _). cbn. rewrite Hm2, Hm1. eexists 500, _. split_and!; eauto.
      trace_facts. }
  rewrite exec_try_catch_bind.
  match goal with
  | |- context [exec W (triggerWorkflow ?a ?b ?c ?d ?e) ?m' ?s'] =>
    destruct (triggerWorkflow_summary a b c d e m' s') as (Hm3 & Hl3 & Ho3);
    set (r3 := exec W (triggerWorkflow a b c d e) m' s') in *
  end.
  assert (Hn3 : Forall (fun ev => listed ev = None) (trace r3)).
  { eapply Forall_impl; [exact Hl3|]. apply no_listing_not_listed. }
  destruct Ho3 as [[Ho3 Ht3]|[e Ho3]]; rewrite Ho3; cbn.
  2:{ left. unfold respond_500.
      rewrite (handleError_answered e _ _ _). cbn. rewrite Hm3, Hm2, Hm1. eexists 500, _.
      split_and!; eauto. trace_facts. }
  destruct (answer W _ (final_world r3)) as [[runs|e] s4]; cbn.
  2:{ left. unfold respond_500.
      rewrite (handleError_answered e _ _ _). cbn. rewrite Hm3, Hm2, Hm1. eexists 500, _.
      split_and!; eauto. trace_facts. }
  destruct (answer W _ s4) as [now s5]; cbn.
  right. rewrite Hm3, Hm2, Hm1.
  eexists t, (trace r1 ++ Event (ReadFileSync workflowPath) (inr text)
                :: trace r2)%list, runs, now,
    {| runId := "test-run-" +:+ pretty t;
       owner := destructure (split_on "/" (fullName rr)) 0;
       repo := destructure (split_on "/" (fullName rr)) 1;
       repoFullName := fullName rr;
       workflowRunId := first_run_id runs;
       testName :=
         match body_testName body with
         | JUndefined => JStr "selenium-test"
         | v => v
         end;
       createdAt := now;
       status := "queued";
       conclusion := JUndefined;
       updatedAt := JUndefined |}.
  split_and!; try reflexivity.
  - cbn. f_equal. rewrite Ht3. rewrite <- !app_assoc. reflexivity.
  - apply Forall_app; split; auto.
  - cbn. by destruct runs.
  - cbn. by destruct runs.
Qed.

Local Transparent commitFiles createRepo triggerWorkflow.

(** A list of runs seen by [createTestRun] comes from the one listing it
    asks for, three seconds after the dispatch and right before the run
    is registered. *)
Lemma createTestRun_listed svc body m s ev runs :
  let res := exec W (createTestRun svc body) m s in
  In ev (trace res) ->
  listed ev = Some runs ->
  exists md before now,
    trace res =
      (before ++
         [Event (PostDispatch (to_template (owner md)) (to_template (repo md))
                   "selenium-test.yml" "main" [("test_id", runId md)])
            (Resolved tt);
          Event (SetTimeout 3000) tt;
          ev;
          Event NewDateISO now])%list
    /\ ev = Event (GetRuns (to_template (owner md)) (to_template (repo md)) 1)
              (Resolved runs)
    /\ List.filter is_run_listing (calls res) = [ev_request ev]
    /\ final_registry res = <[runId md := md]> m
    /\ workflowRunId md = first_run_id runs
    /\ status md = "queued"
    /\ outcome res =
         inl {| http_status := 201;
                http_body :=
                  CreatedBody (runId md) (first_run_id runs)
                    (repoFullName md)
                    ("https://github.com/" +:+ repoFullName md)
                    (first_run_url runs) "queued"
                    "Test run created and workflow triggered successfully" |}.
Proof.
  intros res Hin Hev.
  destruct (createTestRun_run svc body m s)
    as [(code & msg & _ & _ & _ & Hnone)
       |(t & prefix & runs' & now & md & Ht & Hpre & Ho & Hm & _ & Hw & Hs & _)].
  - rewrite Forall_forall in Hnone.
    apply list_elem_of_In, Hnone in Hin. fold res in Hin. congruence.
  - fold res in Ht, Ho, Hm.
    assert (Hg : ev = Event (GetRuns (to_template (owner md))
                               (to_template (repo md)) 1) (Resolved runs')).
    { rewrite Ht in Hin. destruct Hin as [<-|Hin]; [done|].
      apply in_app_or in Hin as [Hin|[<-|[<-|[<-|[<-|[<-|[]]]]]]]; try done.
      rewrite Forall_forall in Hpre.
      apply list_elem_of_In, Hpre, no_listing_not_listed in Hin. congruence. }
    subst ev. cbn in Hev. inversion Hev; subst runs'.
    exists md, (Event DateNow t :: prefix ++ [Event (SetTimeout 2000) tt])%list,
      now.
    split_and!; auto.
    + rewrite Ht. cbn. f_equal. by rewrite <- app_assoc.
    + unfold calls. rewrite Ht. cbn. rewrite map_app, List.filter_app.
      by rewrite filter_no_listing.
    + by rewrite <- Hw.
Qed.
End Handlers.

(** ** Run correlation *)

(** C1, as the code has it: when [createTestRun] obtains a list of runs,
    it has asked for it once, for one run, three seconds after the
    dispatch, and the run it assigns is the first of that list (none when
    the list is empty), whatever commit that run was started for and
    whenever it was created. *)
Theorem C1_first_listed_run_is_assigned {S} (W : world S) svc body m s ev runs :
  In ev (trace (exec W (createTestRun svc body) m s)) ->
  listed ev = Some runs ->
  exists md before now,
    trace (exec W (createTestRun svc body) m s) =
      (before ++
         [Event (PostDispatch (to_template (owner md)) (to_template (repo md))
                   "selenium-test.yml" "main" [("test_id", runId md)])
            (Resolved tt);
          Event (SetTimeout 3000) tt;
          Event (GetRuns (to_template (owner md)) (to_template (repo md)) 1)
            (Resolved runs);
          Event NewDateISO now])%list
    /\ List.filter is_run_listing (calls (exec W (createTestRun svc body) m s))
       = [GetRuns (to_template (owner md)) (to_template (repo md)) 1]
    /\ final_registry (exec W (createTestRun svc body) m s)
       = <[runId md := md]> m
    /\ workflowRunId md = first_run_id runs.
Proof.
  intros Hin Hev.
  destruct (createTestRun_listed W svc body m s ev runs Hin Hev)
    as (md & before & now & Ht & -> & Hone & Hreg & Hid & _).
  exists md, before, now. split_and!; assumption.
Qed.

Lemma C1_first_listed_run_is_assigned_witness :
  In (Event (GetRuns "alice" "suite" 1) (Resolved [late_run]))
     (trace slow_second)
  /\ exists md,
       final_registry slow_second
       = <[runId md := md]> (final_registry slow_first)
       /\ workflowRunId md = JNum 10.
Proof.
  assert (Hin : In (Event (GetRuns "alice" "suite" 1) (Resolved [late_run]))
                  (trace slow_second)).
  { vm_compute. do 13 right. left. reflexivity. }
  split; [exact Hin|].
  pose proof (C1_first_listed_run_is_assigned platform alice
                (submission "print(2)" (JStr "suite"))
                (final_registry slow_first) (final_world slow_first)
                (Event (GetRuns "alice" "suite" 1) (Resolved [late_run]))) as H.
  unfold slow_second in Hin. specialize (H _ Hin eq_refl).
  destruct H as (md & before & now & _ & _ & Hreg & Hid).
  exists md. split; [exact Hreg|exact Hid].
Defined.

(** C1 fails as stated: on a platform that needs four seconds to start a
    run, the second of two submissions to the same repository is assigned
    the run started for the commit of the first. *)
Lemma C1_counterexample_other_commit_assigned :
  commit_of (trace slow_first) = Some "obj7"
  /\ commit_of (trace slow_second) = Some "obj12"
  /\ workflowRunId <$> (final_registry slow_second !! "test-run-1700000006500")
     = Some (JNum 10)
  /\ find_run (final_world slow_second) "alice" "suite" "10" = Some late_run
  /\ run_head_sha late_run = "obj7".
Proof. vm_compute. auto. Qed.

(** The same happens when the two submissions overlap: both commit, both
    dispatch, and both are assigned run 13, started for the commit of the
    second; run 12, started by the dispatch of the first, is assigned to
    neither. *)
Lemma crossed_dispatches_share_a_run :
  commit_of (trace1 crossed) = Some "obj7"
  /\ commit_of (trace2 crossed) = Some "obj11"
  /\ workflowRunId <$> (joint_registry crossed !! "test-run-1700000000000")
     = Some (JNum 13)
  /\ workflowRunId <$> (joint_registry crossed !! "test-run-1700000001200")
     = Some (JNum 13)
  /\ run_head_sha <$> find_run (joint_world crossed) "alice" "suite" "13"
     = Some "obj11"
  /\ is_Some (find_run (joint_world crossed) "alice" "suite" "12").
Proof. vm_compute. split_and!; eauto. Qed.

(** C6, as the code has it: an empty list of runs is no failure.  The
    request is answered 201 and the run registered as queued, without a
    workflow run id. *)
Theorem C6_empty_listing_still_succeeds {S} (W : world S) svc body m s ev :
  In ev (trace (exec W (createTestRun svc body) m s)) ->
  listed ev = Some [] ->
  exists md,
    outcome (exec W (createTestRun svc body) m s) =
      inl {| http_status := 201;
             http_body :=
               CreatedBody (runId md) JUndefined (repoFullName md)
                 ("https://github.com/" +:+ repoFullName md)
                 JUndefined "queued"
                 "Test run created and workflow triggered successfully" |}
    /\ final_registry (exec W (createTestRun svc body) m s)
       = <[runId md := md]> m
    /\ workflowRunId md = JUndefined
    /\ status md = "queued".
Proof.
  intros Hin Hev.
  destruct (createTestRun_listed W svc body m s ev [] Hin Hev)
    as (md & _ & _ & _ & _ & _ & ? & ? & ? & ?).
  exists md. split_and!; assumption.
Qed.

Lemma C6_empty_listing_still_succeeds_witness :
  In (Event (GetRuns "alice" "suite" 1) (Resolved [])) (trace slow_first)
  /\ exists md,
       final_registry slow_first = <[runId md := md]> ∅
       /\ workflowRunId md = JUndefined
       /\ status md = "queued".
Proof.
  assert (Hin : In (Event (GetRuns "alice" "suite" 1) (Resolved []))
                  (trace slow_first)).
  { vm_compute. do 13 right. left. reflexivity. }
  split; [exact Hin|].
  pose proof (C6_empty_listing_still_succeeds platform alice
                (submission "print(1)" (JStr "suite")) ∅ (fresh "alice" 4000)
                (Event (GetRuns "alice" "suite" 1) (Resolved []))) as H.
  unfold slow_first in Hin. specialize (H Hin eq_refl).
  destruct H as (md & _ & Hreg & Hid & Hst).
  exists md. split; [exact Hreg|]. split; [exact Hid|exact Hst].
Defined.

(** C6 fails as stated: no run is there when the list is read, and the
    request is answered 201 all the same. *)
Lemma C6_counterexample_silent_success :
  sim_runs (final_world slow_first) !! "alice/suite" = None
  /\ outcome slow_first =
       inl {| http_status := 201;
              http_body :=
                CreatedBody "test-run-1700000000000" JUndefined "alice/suite"
                  "https://github.com/alice/suite" JUndefined "queued"
                  "Test run created and workflow triggered successfully" |}.
Proof. vm_compute. auto. Qed.

(** ** Status refresh *)

(** C2, as the code has it: a refresh that reaches the platform stores
    the status and the conclusion the platform reports at that moment, and
    changes nothing else of the record. *)
Theorem C2_refresh_stores_reported_status {S} (W : world S) m s runId md run s1 :
  m !! runId = Some md ->
  answer W (GetRun (to_template (owner md)) (to_template (repo md))
              (to_template (workflowRunId md))) s = (Resolved run, s1) ->
  exists now,
    final_registry (exec W (getStatus runId) m s) =
      <[runId :=
          set_updatedAt (JStr now)
            (set_conclusion (of_nullable (run_conclusion run))
               (set_status (run_status run) md))]> m
    /\ outcome (exec W (getStatus runId) m s) =
         inl {| http_status := 200;
                http_body :=
                  StatusBody runId (workflowRunId md) (run_status run)
                    (of_nullable (run_conclusion run)) (run_html_url run)
                    (createdAt md) (JStr now) |}.
Proof.
  intros Hm Hrun. unfold getStatus. cbn. rewrite Hm. cbn. rewrite Hrun. cbn.
  destruct (answer W NewDateISO s1) as [now s2]. cbn. by exists now.
Qed.

Lemma C2_refresh_stores_reported_status_witness :
  final_registry refreshed_done !! created_id = Some finished_record
  /\ exists now,
       final_registry refreshed_again =
         <[created_id :=
             set_updatedAt (JStr now)
               (set_conclusion JNull (set_status "queued" finished_record))]>
           (final_registry refreshed_done)
       /\ outcome refreshed_again =
            inl {| http_status := 200;
                   http_body :=
                     StatusBody created_id (JNum 8) "queued" JNull
                       "https://github.com/alice/suite/actions/runs/8"
                       "t1700000006500" (JStr now) |}.
Proof.
  assert (Hreg : final_registry refreshed_done !! created_id
                 = Some finished_record).
  { vm_compute. reflexivity. }
  split; [exact Hreg|].
  pose proof (C2_refresh_stores_reported_status platform
                (final_registry refreshed_done)
                (rerun "alice/suite" 8 (final_world refreshed_done))
                created_id finished_record requeued_run
                (tick round_trip
                   (rerun "alice/suite" 8 (final_world refreshed_done)))
                Hreg) as H.
  assert (Hrun : answer platform (GetRun "alice" "suite" "8")
                   (rerun "alice/suite" 8 (final_world refreshed_done))
                 = (Resolved requeued_run,
                    tick round_trip
                      (rerun "alice/suite" 8 (final_world refreshed_done)))).
  { vm_compute. reflexivity. }
  specialize (H Hrun). destruct H as (now & H1 & H2).
  exists now. split; [exact H1|exact H2].
Defined.

(** A refresh that does not reach the run leaves the record as it was. *)
Lemma getStatus_rejected {S} (W : world S) m s runId md e s1 :
  m !! runId = Some md ->
  answer W (GetRun (to_template (owner md)) (to_template (repo md))
              (to_template (workflowRunId md))) s = (Rejected e, s1) ->
  final_registry (exec W (getStatus runId) m s) = m
  /\ outcome (exec W (getStatus runId) m s) =
       inl {| http_status := 500;
              http_body :=
                ErrorBody
                  (err_message (handleError e "Failed to fetch workflow run")) |}.
Proof.
  intros Hm Hrun. unfold getStatus. cbn. rewrite Hm. cbn. rewrite Hrun.
  by destruct e.
Qed.

(** C2 fails as stated: the run finishes, somebody re-runs it, and the
    next refresh takes the stored status from completed back to queued and
    the conclusion from success to null. *)
Lemma C2_counterexample_status_reverts :
  status <$> (final_registry refreshed_done !! created_id) = Some "completed"
  /\ conclusion <$> (final_registry refreshed_done !! created_id)
     = Some (JStr "success")
  /\ status <$> (final_registry refreshed_again !! created_id) = Some "queued"
  /\ conclusion <$> (final_registry refreshed_again !! created_id) = Some JNull.
Proof. vm_compute. auto. Qed.

(** Every refresh of a run asks the platform for the run id stored at
    creation, and no refresh changes that id. *)
Lemma getStatus_first_call {S} (W : world S) m s runId md :
  m !! runId = Some md ->
  head (calls (exec W (getStatus runId) m s)) =
    Some (GetRun (to_template (owner md)) (to_template (repo md))
            (to_template (workflowRunId md))).
Proof.
  intros Hm. unfold getStatus, calls. cbn. rewrite Hm. cbn.
  by destruct (answer W _ s) as [x s1].
Qed.

Lemma getStatus_keeps_address {S} (W : world S) m s runId md :
  m !! runId = Some md ->
  exists md',
    final_registry (exec W (getStatus runId) m s) !! runId = Some md'
    /\ owner md' = owner md /\ repo md' = repo md
    /\ workflowRunId md' = workflowRunId md.
Proof.
  intros Hm. unfold getStatus. cbn. rewrite Hm. cbn.
  destruct (answer W _ s) as [[run|e] s1]; cbn.
  - destruct (answer W NewDateISO s1) as [now s2]. cbn.
    eexists. rewrite lookup_insert_eq. eauto.
  - destruct e; cbn; eauto.
Qed.

Lemma refreshes_keep_address {S} (W : world S) n m s runId md :
  m !! runId = Some md ->
  exists md',
    (refreshes W n runId m s).1 !! runId = Some md'
    /\ owner md' = owner md /\ repo md' = repo md
    /\ workflowRunId md' = workflowRunId md.
Proof.
  revert m s md; induction n as [|n IH]; intros m s md Hm; cbn.
  - eauto.
  - destruct (getStatus_keeps_address W m s runId md Hm)
      as (md1 & H1 & Ho & Hr & Hw).
    destruct (IH _ (final_world (exec W (getStatus runId) m s)) _ H1)
      as (md2 & H2 & Ho2 & Hr2 & Hw2).
    exists md2. split; [exact H2|]. split_and!; congruence.
Qed.

(** ** The reference update of the commit pipeline *)




(** The platform model refuses an unforced update that is no fast
    forward, and leaves the branch as it is. *)
Lemma update_ref_not_fast_forward o r b old new s :
  sim_refs s !! (full o r, b) = Some old ->
  is_commit s new = true ->
  fast_forward s old new = false ->
  update_ref o r b new false s = (http_422 "Update is not a fast forward", s).
Proof.
  intros Href Hc Hff. unfold update_ref. by rewrite Href, Hc, Hff.
Qed.

(** ** Base64 and UTF-8 *)

Lemma forallb_below n (P : N -> bool) :
  forallb P (map N.of_nat (seq 0 n)) = true ->
  forall x, (x < N.of_nat n)%N -> P x = true.
Proof.
  intros H x Hx. rewrite forallb_forall in H. apply H.
  apply in_map_iff. exists (N.to_nat x). split; [lia|]. apply in_seq. lia.
Qed.

Lemma b64_digit_value d :
  (d < 64)%N ->
  b64_value (b64_digit d) = d /\ b64_digit d <> "="%char.
Proof.
  intros Hd.
  assert (Hall : forallb
                   (fun d => N.eqb (b64_value (b64_digit d)) d
                             && negb (Ascii.eqb (b64_digit d) "="))
                   (map N.of_nat (seq 0 64)) = true)
    by (vm_compute; reflexivity).
  pose proof (forallb_below 64 _ Hall d Hd) as H. cbn beta in H.
  clear Hall.
  apply andb_true_iff in H as [H1 H2].
  apply N.eqb_eq in H1. apply negb_true_iff, Ascii.eqb_neq in H2. done.
Qed.

(** The four digits of three bytes, and the bytes back. *)
Lemma b64_pair_left a b :
  (a < 256)%N -> (b < 256)%N ->
  (N.shiftr a 2 < 64)%N
  /\ (N.lor (N.shiftl (N.land a 3) 4) (N.shiftr b 4) < 64)%N
  /\ N.lor (N.shiftl (N.shiftr a 2) 2)
       (N.shiftr (N.lor (N.shiftl (N.land a 3) 4) (N.shiftr b 4)) 4) = a
  /\ N.land (N.lor (N.shiftl (N.land a 3) 4) (N.shiftr b 4)) 15
     = N.shiftr b 4.
Proof.
  intros Ha Hb.
  assert (Hall :
    forallb (fun a =>
      forallb (fun b =>
        (N.shiftr a 2 <? 64)%N
        && (N.lor (N.shiftl (N.land a 3) 4) (N.shiftr b 4) <? 64)%N
        && N.eqb (N.lor (N.shiftl (N.shiftr a 2) 2)
                    (N.shiftr (N.lor (N.shiftl (N.land a 3) 4) (N.shiftr b 4)) 4))
             a
        && N.eqb (N.land (N.lor (N.shiftl (N.land a 3) 4) (N.shiftr b 4)) 15)
             (N.shiftr b 4))
        (map N.of_nat (seq 0 256)))
      (map N.of_nat (seq 0 256)) = true) by (vm_compute; reflexivity).
  pose proof (forallb_below 256 _ Hall a Ha) as H. cbn beta in H.
  pose proof (forallb_below 256 _ H b Hb) as H'. cbn beta in H'.
  clear Hall H.
  repeat (apply andb_true_iff in H' as [H' ?]).
  repeat match goal with
         | H : N.eqb _ _ = true |- _ => apply N.eqb_eq in H
         | H : N.ltb _ _ = true |- _ => apply N.ltb_lt in H
         end.
  split_and!; assumption.
Qed.

Lemma b64_pair_right b c :
  (b < 256)%N -> (c < 256)%N ->
  (N.lor (N.shiftl (N.land b 15) 2) (N.shiftr c 6) < 64)%N
  /\ (N.land c 63 < 64)%N
  /\ N.lor (N.shiftl (N.shiftr b 4) 4)
       (N.shiftr (N.lor (N.shiftl (N.land b 15) 2) (N.shiftr c 6)) 2) = b
  /\ N.lor (N.shiftl (N.land (N.lor (N.shiftl (N.land b 15) 2) (N.shiftr c 6)) 3) 6)
       (N.land c 63) = c.
Proof.
  intros Hb Hc.
  assert (Hall :
    forallb (fun b =>
      forallb (fun c =>
        (N.lor (N.shiftl (N.land b 15) 2) (N.shiftr c 6) <? 64)%N
        && (N.land c 63 <? 64)%N
        && N.eqb (N.lor (N.shiftl (N.shiftr b 4) 4)
                    (N.shiftr (N.lor (N.shiftl (N.land b 15) 2) (N.shiftr c 6)) 2))
             b
        && N.eqb (N.lor (N.shiftl (N.land (N.lor (N.shiftl (N.land b 15) 2)
                                              (N.shiftr c 6)) 3) 6)
                    (N.land c 63))
             c)
        (map N.of_nat (seq 0 256)))
      (map N.of_nat (seq 0 256)) = true) by (vm_compute; reflexivity).
  pose proof (forallb_below 256 _ Hall b Hb) as H. cbn beta in H.
  pose proof (forallb_below 256 _ H c Hc) as H'. cbn beta in H'.
  clear Hall H.
  repeat (apply andb_true_iff in H' as [H' ?]).
  repeat match goal with
         | H : N.eqb _ _ = true |- _ => apply N.eqb_eq in H
         | H : N.ltb _ _ = true |- _ => apply N.ltb_lt in H
         end.
  split_and!; assumption.
Qed.

Lemma b64_decode_group d0 d1 d2 d3 rest :
  (d0 < 64)%N -> (d1 < 64)%N -> (d2 < 64)%N -> (d3 < 64)%N ->
  b64_decode_chars
    (b64_digit d0 :: b64_digit d1 :: b64_digit d2 :: b64_digit d3 :: rest)
  = N.lor (N.shiftl d0 2) (N.shiftr d1 4)
    :: N.lor (N.shiftl (N.land d1 15) 4) (N.shiftr d2 2)
    :: N.lor (N.shiftl (N.land d2 3) 6) d3
    :: b64_decode_chars rest.
Proof.
  intros H0 H1 H2 H3.
  destruct (b64_digit_value d0 H0) as [E0 _].
  destruct (b64_digit_value d1 H1) as [E1 _].
  destruct (b64_digit_value d2 H2) as [E2 N2].
  destruct (b64_digit_value d3 H3) as [E3 N3].
  cbn [b64_decode_chars]. cbv zeta. rewrite E0, E1, E2, E3.
  by rewrite !bool_decide_eq_false_2.
Qed.

Lemma b64_decode_two d0 d1 d2 :
  (d0 < 64)%N -> (d1 < 64)%N -> (d2 < 64)%N ->
  b64_decode_chars [b64_digit d0; b64_digit d1; b64_digit d2; "="%char]
  = [N.lor (N.shiftl d0 2) (N.shiftr d1 4);
     N.lor (N.shiftl (N.land d1 15) 4) (N.shiftr d2 2)].
Proof.
  intros H0 H1 H2.
  destruct (b64_digit_value d0 H0) as [E0 _].
  destruct (b64_digit_value d1 H1) as [E1 _].
  destruct (b64_digit_value d2 H2) as [E2 N2].
  cbn [b64_decode_chars]. cbv zeta. rewrite E0, E1, E2.
  rewrite bool_decide_eq_false_2 by done.
  by rewrite bool_decide_eq_true_2.
Qed.

Lemma b64_decode_one d0 d1 :
  (d0 < 64)%N -> (d1 < 64)%N ->
  b64_decode_chars [b64_digit d0; b64_digit d1; "="%char; "="%char]
  = [N.lor (N.shiftl d0 2) (N.shiftr d1 4)].
Proof.
  intros H0 H1.
  destruct (b64_digit_value d0 H0) as [E0 _].
  destruct (b64_digit_value d1 H1) as [E1 _].
  cbn [b64_decode_chars]. cbv zeta. rewrite E0, E1.
  by rewrite bool_decide_eq_true_2.
Qed.

Lemma b64_decode_encode (bytes : list N) :
  Forall (fun b => (b < 256)%N) bytes ->
  b64_decode_chars (list_ascii_of_string (b64_encode bytes)) = bytes.
Proof.
  remember (length bytes) as n eqn:Hn.
  revert bytes Hn. induction n as [n IH] using lt_wf_ind.
  intros bytes Hn Hall.
  destruct bytes as [|a [|b [|c rest]]].
  - done.
  - apply Forall_cons in Hall as [Ha _].
    assert (H0 : (0 < 256)%N) by lia.
    destruct (b64_pair_left a 0 Ha H0) as (L0 & L1 & E0 & _).
    change (N.shiftr 0 4) with 0%N in *. rewrite N.lor_0_r in *.
    cbn [b64_encode list_ascii_of_string].
    rewrite b64_decode_one by done. by rewrite E0.
  - apply Forall_cons in Hall as [Ha Hall].
    apply Forall_cons in Hall as [Hb _].
    assert (H0 : (0 < 256)%N) by lia.
    destruct (b64_pair_left a b Ha Hb) as (L0 & L1 & E0 & E1).
    destruct (b64_pair_right b 0 Hb H0) as (L2 & _ & E2 & _).
    change (N.shiftr 0 6) with 0%N in *. rewrite N.lor_0_r in *.
    cbn [b64_encode list_ascii_of_string].
    rewrite b64_decode_two by done. by rewrite E0, E1, E2.
  - apply Forall_cons in Hall as [Ha Hall].
    apply Forall_cons in Hall as [Hb Hall].
    apply Forall_cons in Hall as [Hc Hall].
    destruct (b64_pair_left a b Ha Hb) as (L0 & L1 & E0 & E1).
    destruct (b64_pair_right b c Hb Hc) as (L2 & L3 & E2 & E3).
    cbn [b64_encode list_ascii_of_string].
    rewrite b64_decode_group by done. rewrite E0, E1, E2, E3.
    do 3 f_equal. apply (IH (length rest)); [cbn in Hn; lia|done|done].
Qed.

Lemma pair_bytes_below high low :
  Forall (fun b => (b < 256)%N) (pair_bytes high low).
Proof.
  unfold pair_bytes. cbv zeta.
  repeat constructor;
    match goal with
    | |- (_ + ?x mod ?k < 256)%N =>
        pose proof (N.mod_upper_bound x k ltac:(lia)); lia
    end.
Qed.

(** [Buffer.from] yields bytes. *)
Lemma utf8_below (bytes : list N) :
  Forall (fun b => (b < 256)%N) bytes ->
  Forall (fun b => (b < 256)%N) (utf8 bytes).
Proof.
  remember (length bytes) as n eqn:Hn.
  revert bytes Hn. induction n as [n IH] using lt_wf_ind.
  intros bytes Hn Hall.
  destruct bytes as [|a rest]; [constructor|].
  apply Forall_cons in Hall as [Ha Hrest].
  assert (Hone : Forall (fun b => (b < 256)%N) (a :: utf8 rest)).
  { constructor; [done|]. apply (IH (length rest)); cbn in Hn; [lia|done|done]. }
  destruct rest as [|b1 [|b2 rest2]]; try exact Hone.
  assert (Hrep : Forall (fun b => (b < 256)%N) (replacement ++ utf8 rest2)%list).
  { apply Forall_app. split; [by repeat constructor|].
    apply Forall_cons in Hrest as [_ Hrest].
    apply Forall_cons in Hrest as [_ Hrest].
    apply (IH (length rest2)); cbn in Hn; [lia|done|done]. }
  change (utf8 (a :: b1 :: b2 :: rest2)) with
    (if (a =? 237)%N && is_high b1 b2 then
       match rest2 with
       | a' :: c1 :: c2 :: rest3 =>
           if (a' =? 237)%N && is_low c1 c2
           then (pair_bytes (surrogate_unit b1 b2) (surrogate_unit c1 c2)
                   ++ utf8 rest3)%list
           else (replacement ++ utf8 rest2)%list
       | _ => (replacement ++ utf8 rest2)%list
       end
     else if (a =? 237)%N && is_low b1 b2
     then (replacement ++ utf8 rest2)%list
     else a :: utf8 (b1 :: b2 :: rest2)).
  destruct ((a =? 237)%N && is_high b1 b2).
  - destruct rest2 as [|a' [|c1 [|c2 rest3]]]; try exact Hrep.
    destruct ((a' =? 237)%N && is_low c1 c2); [|exact Hrep].
    apply Forall_app. split; [apply pair_bytes_below|].
    do 5 (apply Forall_cons in Hrest as [_ Hrest]).
    apply (IH (length rest3)); cbn in Hn; [lia|done|done].
  - destruct ((a =? 237)%N && is_low b1 b2); [exact Hrep|exact Hone].
Qed.

(** Decoding the base64 text of a content gives the bytes
    [Buffer.from] made of it. *)
Lemma b64_decode_base64 (s : string) : b64_decode (base64 s) = Buffer_from s.
Proof.
  unfold b64_decode, base64. apply b64_decode_encode.
  unfold Buffer_from. apply utf8_below.
  apply Forall_forall. intros b Hb.
  apply list_elem_of_In, in_map_iff in Hb as (c & <- & _).
  apply N_ascii_bounded.
Qed.

(** ** One commit for all the files *)




(** What the commit of [committed_files] leaves on the platform model: the
    branch at the new commit, whose only parent is the head it replaced;
    each of the three files in its tree, under the blob returned for it
    and holding the bytes of its content; and the file of the base tree
    still there. *)
Lemma committed_files_tree :
  sim_refs seeded !! ("alice/suite", "main") = Some "obj3"
  /\ sim_refs (final_world committed_files) !! ("alice/suite", "main")
     = Some "obj8"
  /\ sim_objects (final_world committed_files) !! "obj8"
     = Some (Commit "obj7" ["obj3"] "commit three")
  /\ te_sha <$> file_at (final_world committed_files) "alice/suite" "main" "a.py"
     = Some "obj4"
  /\ te_sha <$> file_at (final_world committed_files) "alice/suite" "main" "b.py"
     = Some "obj5"
  /\ te_sha <$> file_at (final_world committed_files) "alice/suite" "main"
                 "odd.txt"
     = Some "obj6"
  /\ te_sha <$> file_at (final_world committed_files) "alice/suite" "main"
                 "README.md"
     = Some "obj1"
  /\ sim_objects (final_world committed_files) !! "obj4" = Some (Blob "QQ==")
  /\ sim_objects (final_world committed_files) !! "obj5" = Some (Blob "QkM=")
  /\ sim_objects (final_world committed_files) !! "obj6" = Some (Blob "77+9").
Proof. vm_compute. repeat split. Qed.

(** What the first commit of [committed] leaves on the platform model: the
    branch at the new commit, the new file in its tree, and the file of the
    base tree still there. *)
Lemma committed_tree :
  sim_refs (final_world committed) !! ("alice/suite", "main") = Some "obj6"
  /\ te_sha <$> file_at (final_world committed) "alice/suite" "main" "a.py"
     = Some "obj4"
  /\ te_sha <$> file_at (final_world committed) "alice/suite" "main" "README.md"
     = Some "obj1"
  /\ sim_objects (final_world committed) !! "obj6"
     = Some (Commit "obj5" ["obj3"] "commit A").
Proof. vm_compute. auto. Qed.

(** A partial tree update keeps every path it does not name. *)
Lemma overlay_inherits base posted file :
  file ∉ map te_path posted ->
  overlay base posted !! file = base !! file.
Proof.
  unfold overlay. revert base.
  induction posted as [|e posted IH]; intros base Hnot; cbn; [done|].
  cbn in Hnot. apply not_elem_of_cons in Hnot as [Hne Hnot].
  rewrite IH by done. by rewrite lookup_insert_ne.
Qed.

(** ** Cleanup *)




(** When the platform accepts the deletion, the entry goes. *)
Lemma deleteRun_accepted {S} (W : world S) m s runId md s1 :
  m !! runId = Some md ->
  answer W (DeleteRepo (to_template (owner md)) (to_template (repo md))) s
  = (Resolved tt, s1) ->
  outcome (exec W (deleteRun runId) m s)
  = inl {| http_status := 200;
           http_body :=
             DeletedBody "Test run and repository deleted successfully" |}
  /\ final_registry (exec W (deleteRun runId) m s) = delete runId m.
Proof.
  intros Hm Hdel. unfold deleteRun, deleteRepo. cbn. rewrite Hm. cbn.
  by rewrite Hdel.
Qed.

(** ** Unknown runs and invalid submissions *)

(** C7: for a run id the registry does not hold, [getStatus], [getLogs]
    and [deleteRun] answer 404 without a single call and without touching
    the registry. *)
Theorem C7_unregistered_run_is_not_found {S} (W : world S) (m : registry)
    (s : S) (runId : string) :
  m !! runId = None ->
  exec W (getStatus runId) m s =
    {| outcome := inl {| http_status := 404;
                         http_body := ErrorBody "Test run not found" |};
       final_registry := m; final_world := s; trace := [] |}
  /\ exec W (getLogs runId) m s =
    {| outcome := inl {| http_status := 404;
                         http_body := ErrorBody "Test run not found" |};
       final_registry := m; final_world := s; trace := [] |}
  /\ exec W (deleteRun runId) m s =
    {| outcome := inl {| http_status := 404;
                         http_body := ErrorBody "Test run not found" |};
       final_registry := m; final_world := s; trace := [] |}.
Proof.
  intros Hm. cbn. rewrite Hm. auto.
Qed.

Lemma C7_unregistered_run_is_not_found_witness :
  final_registry created !! "test-run-1" = None
  /\ outcome (exec platform (getStatus "test-run-1") (final_registry created)
               (final_world created))
     = inl {| http_status := 404; http_body := ErrorBody "Test run not found" |}
  /\ outcome (exec platform (getLogs "test-run-1") (final_registry created)
               (final_world created))
     = inl {| http_status := 404; http_body := ErrorBody "Test run not found" |}
  /\ outcome (exec platform (deleteRun "test-run-1") (final_registry created)
               (final_world created))
     = inl {| http_status := 404; http_body := ErrorBody "Test run not found" |}.
Proof.
  assert (Hm : final_registry created !! "test-run-1" = None).
  { vm_compute. reflexivity. }
  split; [exact Hm|].
  destruct (C7_unregistered_run_is_not_found platform (final_registry created)
              (final_world created) "test-run-1" Hm) as (H1 & H2 & H3).
  split; [exact (f_equal outcome H1)|].
  split; [exact (f_equal outcome H2)|exact (f_equal outcome H3)].
Defined.

Lemma not_a_string_rejected (v : jsval) :
  typeof v <> "string" ->
  negb (truthy v) || negb (bool_decide (typeof v = "string")) = true.
Proof. intros H. rewrite (bool_decide_eq_false_2 _ H). apply orb_true_r. Qed.

(** C9: a [testScript] that is missing or is not a string is answered 400
    before anything else happens: no call is made and the registry is the
    one found. *)
Theorem C9_invalid_script_is_rejected_first {S} (W : world S) (m : registry)
    (s : S) svc body :
  typeof (testScript body) <> "string" ->
  exec W (createTestRun svc body) m s =
    {| outcome :=
         inl {| http_status := 400;
                http_body :=
                  ErrorBody "testScript is required and must be a string" |};
       final_registry := m; final_world := s; trace := [] |}.
Proof.
  intros Hty. unfold createTestRun. cbv zeta.
  rewrite (not_a_string_rejected _ Hty). reflexivity.
Qed.

Lemma C9_invalid_script_is_rejected_first_witness :
  typeof JUndefined <> "string"
  /\ exec platform
       (createTestRun alice
          {| testScript := JUndefined; body_testName := JUndefined;
             body_repoName := JStr "suite" |})
       ∅ (fresh "alice" 1000) =
     {| outcome :=
          inl {| http_status := 400;
                 http_body :=
                   ErrorBody "testScript is required and must be a string" |};
        final_registry := ∅; final_world := fresh "alice" 1000; trace := [] |}.
Proof.
  assert (Hty : typeof JUndefined <> "string") by discriminate.
  split; [exact Hty|].
  exact (C9_invalid_script_is_rejected_first platform ∅ (fresh "alice" 1000)
           alice
           {| testScript := JUndefined; body_testName := JUndefined;
              body_repoName := JStr "suite" |} Hty).
Defined.

(** The empty string is rejected in the same way. *)
Lemma empty_script_is_rejected {S} (W : world S) (m : registry) (s : S)
    svc body :
  testScript body = JStr "" ->
  exec W (createTestRun svc body) m s =
    {| outcome :=
         inl {| http_status := 400;
                http_body :=
                  ErrorBody "testScript is required and must be a string" |};
       final_registry := m; final_world := s; trace := [] |}.
Proof.
  intros E. unfold createTestRun. cbv zeta. rewrite E. reflexivity.
Qed.

(** ** Run identifiers *)

(** The run id of a creation is made of the clock reading taken at its
    start, and of nothing else. *)
Lemma createTestRun_runId {S} (W : world S) svc body m s
    id wid repository url wurl st msg :
  outcome (exec W (createTestRun svc body) m s)
  = inl {| http_status := 201;
           http_body := CreatedBody id wid repository url wurl st msg |} ->
  exists t,
    head (trace (exec W (createTestRun svc body) m s)) = Some (Event DateNow t)
    /\ id = "test-run-" +:+ pretty t.
Proof.
  intros Ho.
  destruct (createTestRun_run W svc body m s)
    as [(code & msg' & _ & Ho' & _)
       |(t & prefix & runs & now & md & Ht & _ & Ho' & _ & Hid & _)].
  - rewrite Ho in Ho'. discriminate Ho'.
  - rewrite Ho in Ho'. inversion Ho'; subst. exists t. by rewrite Ht.
Qed.

Lemma runId_inj (t1 t2 : Z) :
  "test-run-" +:+ pretty t1 = "test-run-" +:+ pretty t2 -> t1 = t2.
Proof.
  intros H. apply (inj (String.app "test-run-")) in H.
  by apply (inj pretty) in H.
Qed.

(** Two creations get the same run id exactly when their clocks read the
    same millisecond. *)
Lemma runIds_equal_iff_same_reading {S1 S2} (W1 : world S1) (W2 : world S2)
    svc1 svc2 body1 body2 m1 m2 s1 s2
    id1 wid1 repository1 url1 wurl1 st1 msg1
    id2 wid2 repository2 url2 wurl2 st2 msg2 :
  outcome (exec W1 (createTestRun svc1 body1) m1 s1)
  = inl {| http_status := 201;
           http_body := CreatedBody id1 wid1 repository1 url1 wurl1 st1 msg1 |} ->
  outcome (exec W2 (createTestRun svc2 body2) m2 s2)
  = inl {| http_status := 201;
           http_body := CreatedBody id2 wid2 repository2 url2 wurl2 st2 msg2 |} ->
  exists t1 t2,
    head (trace (exec W1 (createTestRun svc1 body1) m1 s1))
    = Some (Event DateNow t1)
    /\ head (trace (exec W2 (createTestRun svc2 body2) m2 s2))
       = Some (Event DateNow t2)
    /\ (id1 = id2 <-> t1 = t2).
Proof.
  intros H1 H2.
  destruct (createTestRun_runId W1 _ _ _ _ _ _ _ _ _ _ _ H1) as (t1 & Ht1 & ->).
  destruct (createTestRun_runId W2 _ _ _ _ _ _ _ _ _ _ _ H2) as (t2 & Ht2 & ->).
  exists t1, t2. split_and!; auto.
  split; [apply runId_inj|by intros ->].
Qed.

(** C8 fails on the code: two submissions arrive within the same
    millisecond, both are answered 201 with the same run id, and the
    registry keeps one entry for the two runs, that of the second. *)
Theorem C8_same_millisecond_same_runId :
  head (trace1 same_instant) = Some (Event DateNow 1700000000000)
  /\ head (trace2 same_instant) = Some (Event DateNow 1700000000000)
  /\ outcome1 same_instant =
       inl {| http_status := 201;
              http_body :=
                CreatedBody "test-run-1700000000000" (JNum 8)
                  "alice/selenium-test-1700000000000"
                  "https://github.com/alice/selenium-test-1700000000000"
                  (JStr "https://github.com/alice/selenium-test-1700000000000/actions/runs/8")
                  "queued"
                  "Test run created and workflow triggered successfully" |}
  /\ outcome2 same_instant =
       inl {| http_status := 201;
              http_body :=
                CreatedBody "test-run-1700000000000" (JNum 16)
                  "alice/suite" "https://github.com/alice/suite"
                  (JStr "https://github.com/alice/suite/actions/runs/16")
                  "queued"
                  "Test run created and workflow triggered successfully" |}
  /\ size (joint_registry same_instant) = 1%nat
  /\ repoFullName <$> (joint_registry same_instant !! "test-run-1700000000000")
     = Some "alice/suite".
Proof. vm_compute. split_and!; reflexivity. Qed.

(** ** A run registered without a workflow run id *)

(** C10: there is an execution in which the list of runs is empty right
    after the dispatch; [createTestRun] answers 201 and registers the run
    as queued with [workflowRunId] undefined; and every later [getStatus]
    for it, however many went before and whatever the environment, starts
    by asking the platform for the run "undefined". *)
Theorem C10_undefined_run_id_is_registered_and_queried :
  exists (s : sim) (body : create_body),
    In (Event (GetRuns "alice" "suite" 1) (Resolved []))
       (trace (exec platform (createTestRun alice body) ∅ s))
    /\ outcome (exec platform (createTestRun alice body) ∅ s) =
         inl {| http_status := 201;
                http_body :=
                  CreatedBody created_id JUndefined "alice/suite"
                    "https://github.com/alice/suite" JUndefined "queued"
                    "Test run created and workflow triggered successfully" |}
    /\ workflowRunId
         <$> (final_registry (exec platform (createTestRun alice body) ∅ s)
                !! created_id) = Some JUndefined
    /\ status
         <$> (final_registry (exec platform (createTestRun alice body) ∅ s)
                !! created_id) = Some "queued"
    /\ forall (S' : Type) (W' : world S') (s' : S') (n : nat),
         head (calls
                 (exec W' (getStatus created_id)
                    (refreshes W' n created_id
                       (final_registry
                          (exec platform (createTestRun alice body) ∅ s)) s').1
                    (refreshes W' n created_id
                       (final_registry
                          (exec platform (createTestRun alice body) ∅ s)) s').2))
         = Some (GetRun "alice" "suite" "undefined").
Proof.
  exists (fresh "alice" 4000), (submission "print(1)" (JStr "suite")).
  split; [vm_compute; do 13 right; left; reflexivity|].
  split; [vm_compute; reflexivity|].
  split; [vm_compute; reflexivity|].
  split; [vm_compute; reflexivity|].
  intros S' W' s' n.
  assert (Hm : final_registry
                 (exec platform
                    (createTestRun alice (submission "print(1)" (JStr "suite")))
                    ∅ (fresh "alice" 4000)) !! created_id
               = Some (set_status "queued" (set_conclusion JUndefined
                         (set_updatedAt JUndefined
                            {| runId := created_id; owner := JStr "alice";
                               repo := JStr "suite";
                               repoFullName := "alice/suite";
                               workflowRunId := JUndefined;
                               testName := JStr "selenium-test";
                               createdAt := "t1700000006500";
                               status := "queued"; conclusion := JUndefined;
                               updatedAt := JUndefined |})))).
  { vm_compute. reflexivity. }
  destruct (refreshes_keep_address W' n _ s' created_id _ Hm)
    as (md' & Hm' & Ho & Hr & Hw).
  rewrite (getStatus_first_call W' _ _ created_id md' Hm').
  rewrite Ho, Hr, Hw. reflexivity.
Qed.

(** * Further properties of the handlers and the service *)

(** * Further properties *)

(** ** What each handler keyed by a run id does, case by case *)

Section Keyed.
Context {S : Type} (W : world S).
Variables (m : registry) (s : S) (id : string) (md : metadata).
Hypothesis registered : m !! id = Some md.

Lemma exec_getStatus_resolved run s1 now s2 :
  answer W (GetRun (to_template (owner md)) (to_template (repo md))
              (to_template (workflowRunId md))) s = (Resolved run, s1) ->
  answer W NewDateISO s1 = (now, s2) ->
  exec W (getStatus id) m s =
    {| outcome :=
         inl {| http_status := 200;
                http_body :=
                  StatusBody id (workflowRunId md) (run_status run)
                    (of_nullable (run_conclusion run)) (run_html_url run)
                    (createdAt md) (JStr now) |};
       final_registry :=
         <[id := set_updatedAt (JStr now)
                   (set_conclusion (of_nullable (run_conclusion run))
                      (set_status (run_status run) md))]> m;
       final_world := s2;
       trace :=
         [Event (GetRun (to_template (owner md)) (to_template (repo md))
                   (to_template (workflowRunId md))) (Resolved run);
          Event NewDateISO now] |}.
Proof.
  intros Hrun Hnow. unfold getStatus. cbn. rewrite registered. cbn.
  rewrite Hrun. cbn. rewrite Hnow. reflexivity.
Qed.

Lemma exec_getStatus_rejected e s1 :
  answer W (GetRun (to_template (owner md)) (to_template (repo md))
              (to_template (workflowRunId md))) s = (Rejected e, s1) ->
  exec W (getStatus id) m s =
    {| outcome :=
         inl {| http_status := 500;
                http_body :=
                  ErrorBody
                    (err_message
                       (handleError e "Failed to fetch workflow run")) |};
       final_registry := m;
       final_world := s1;
       trace :=
         [Event (GetRun (to_template (owner md)) (to_template (repo md))
                   (to_template (workflowRunId md))) (Rejected e)] |}.
Proof.
  intros Hrun. unfold getStatus. cbn. rewrite registered. cbn.
  rewrite Hrun. by destruct e.
Qed.

Lemma exec_getLogs_listed js s1 x s2 :
  answer W (GetJobs (to_template (owner md)) (to_template (repo md))
              (to_template (workflowRunId md))) s = (Resolved js, s1) ->
  answer W (GetRunLogs (to_template (owner md)) (to_template (repo md))
              (to_template (workflowRunId md))) s1 = (x, s2) ->
  exec W (getLogs id) m s =
    {| outcome :=
         inl {| http_status := 200;
                http_body :=
                  LogsBody id (workflowRunId md) js
                    match x with
                    | Resolved (Some location) => JStr location
                    | Resolved None => JUndefined
                    | Rejected _ => JNull
                    end
                    ("https://github.com/" +:+ to_template (owner md)
                       +:+ "/" +:+ to_template (repo md)
                       +:+ "/actions/runs/"
                       +:+ to_template (workflowRunId md)) |};
       final_registry := m;
       final_world := s2;
       trace :=
         [Event (GetJobs (to_template (owner md)) (to_template (repo md))
                   (to_template (workflowRunId md))) (Resolved js);
          Event (GetRunLogs (to_template (owner md)) (to_template (repo md))
                   (to_template (workflowRunId md))) x] |}.
Proof.
  intros Hjobs Hlogs. unfold getLogs. cbn. rewrite registered. cbn.
  rewrite Hjobs. cbn. rewrite Hlogs. reflexivity.
Qed.

Lemma exec_getLogs_rejected e s1 :
  answer W (GetJobs (to_template (owner md)) (to_template (repo md))
              (to_template (workflowRunId md))) s = (Rejected e, s1) ->
  exec W (getLogs id) m s =
    {| outcome :=
         inl {| http_status := 500;
                http_body :=
                  ErrorBody
                    (err_message
                       (handleError e "Failed to fetch workflow logs")) |};
       final_registry := m;
       final_world := s1;
       trace :=
         [Event (GetJobs (to_template (owner md)) (to_template (repo md))
                   (to_template (workflowRunId md))) (Rejected e)] |}.
Proof.
  intros Hjobs. unfold getLogs. cbn. rewrite registered. cbn.
  rewrite Hjobs. by destruct e.
Qed.

Lemma exec_deleteRun_resolved s1 :
  answer W (DeleteRepo (to_template (owner md)) (to_template (repo md))) s
  = (Resolved tt, s1) ->
  exec W (deleteRun id) m s =
    {| outcome :=
         inl {| http_status := 200;
                http_body :=
                  DeletedBody "Test run and repository deleted successfully" |};
       final_registry := delete id m;
       final_world := s1;
       trace :=
         [Event (DeleteRepo (to_template (owner md)) (to_template (repo md)))
            (Resolved tt)] |}.
Proof.
  intros Hdel. unfold deleteRun, deleteRepo. cbn. rewrite registered. cbn.
  by rewrite Hdel.
Qed.

Lemma exec_deleteRun_rejected e s1 :
  answer W (DeleteRepo (to_template (owner md)) (to_template (repo md))) s
  = (Rejected e, s1) ->
  exec W (deleteRun id) m s =
    {| outcome :=
         inl {| http_status := 500;
                http_body :=
                  ErrorBody
                    (err_message
                       (handleError e "Failed to delete repository")) |};
       final_registry := m;
       final_world := s1;
       trace :=
         [Event (DeleteRepo (to_template (owner md)) (to_template (repo md)))
            (Rejected e)] |}.
Proof.
  intros Hdel. unfold deleteRun, deleteRepo. cbn. rewrite registered. cbn.
  rewrite Hdel. by destruct e.
Qed.

Lemma exec_getArtifacts_registered :
  exec W (getArtifacts id) m s =
    {| outcome :=
         inl {| http_status := 500;
                http_body :=
                  ErrorBody
                    "this.githubService.getWorkflowArtifacts is not a function" |};
       final_registry := m;
       final_world := s;
       trace := [] |}.
Proof. unfold getArtifacts. cbn. by rewrite registered. Qed.
End Keyed.

Lemma exec_keyed_unregistered {S} (W : world S) (m : registry) (s : S) id :
  m !! id = None ->
  forall h, In h [getStatus; getLogs; deleteRun; getArtifacts] ->
  exec W (h id) m s =
    {| outcome := inl {| http_status := 404;
                         http_body := ErrorBody "Test run not found" |};
       final_registry := m; final_world := s; trace := [] |}.
Proof.
  intros Hm h [<-|[<-|[<-|[<-|[]]]]]; cbn; by rewrite Hm.
Qed.

(** The cases of a handler keyed by a run id, by the replies it gets. *)
Ltac keyed_cases W m s id :=
  let md := fresh "md" in
  let Hm := fresh "Hm" in
  destruct (m !! id) as [md|] eqn:Hm;
  [ | rewrite (exec_keyed_unregistered W m s id Hm) by (cbn; tauto) ].

Ltac status_cases W m s id md Hm :=
  let x := fresh "x" in let s1 := fresh "s" in let E := fresh "E" in
  destruct (answer W (GetRun (to_template (owner md)) (to_template (repo md))
                        (to_template (workflowRunId md))) s)
    as [[x|x] s1] eqn:E;
  [ let now := fresh "now" in let s2 := fresh "s" in let E2 := fresh "E" in
    destruct (answer W NewDateISO s1) as [now s2] eqn:E2;
    rewrite (exec_getStatus_resolved W m s id md Hm _ _ _ _ E E2)
  | rewrite (exec_getStatus_rejected W m s id md Hm _ _ E) ].

Ltac logs_cases W m s id md Hm :=
  let x := fresh "x" in let s1 := fresh "s" in let E := fresh "E" in
  destruct (answer W (GetJobs (to_template (owner md)) (to_template (repo md))
                        (to_template (workflowRunId md))) s)
    as [[x|x] s1] eqn:E;
  [ let y := fresh "y" in let s2 := fresh "s" in let E2 := fresh "E" in
    destruct (answer W (GetRunLogs (to_template (owner md))
                          (to_template (repo md))
                          (to_template (workflowRunId md))) s1)
      as [y s2] eqn:E2;
    rewrite (exec_getLogs_listed W m s id md Hm _ _ _ _ E E2)
  | rewrite (exec_getLogs_rejected W m s id md Hm _ _ E) ].

Ltac delete_cases W m s id md Hm :=
  let x := fresh "x" in let s1 := fresh "s" in let E := fresh "E" in
  destruct (answer W (DeleteRepo (to_template (owner md))
                        (to_template (repo md))) s)
    as [[[]|x] s1] eqn:E;
  [ rewrite (exec_deleteRun_resolved W m s id md Hm _ E)
  | rewrite (exec_deleteRun_rejected W m s id md Hm _ _ E) ].

(** ** Every handler answers *)

Lemma handler_answers {S} (W : world S) (m : registry) (s : S)
    svc body id p :
  In p [createTestRun svc body; getStatus id; getLogs id; deleteRun id;
        getArtifacts id] ->
  exists r, outcome (exec W p m s) = inl r.
Proof.
  intros Hp. destruct Hp as [<-|[<-|[<-|[<-|[<-|[]]]]]].
  - destruct (createTestRun_run W svc body m s)
      as [(code & msg & Hc & Ho & _)|(t & p & runs & now & md & _ & _ & Ho & _)];
      rewrite Ho; by eexists.
  - keyed_cases W m s id; [status_cases W m s id md Hm|]; by eexists.
  - keyed_cases W m s id; [logs_cases W m s id md Hm|]; by eexists.
  - keyed_cases W m s id; [delete_cases W m s id md Hm|]; by eexists.
  - keyed_cases W m s id;
      [rewrite (exec_getArtifacts_registered W m s id md Hm)|]; by eexists.
Qed.

(** No handler lets an exception escape: each ends with an HTTP answer,
    whose status is one of the few its code can send. *)
Theorem handlers_always_answer {S} (W : world S) (m : registry) (s : S)
    svc body id :
  (exists r, outcome (exec W (createTestRun svc body) m s) = inl r
             /\ In (http_status r) [201; 400; 500])
  /\ (exists r, outcome (exec W (getStatus id) m s) = inl r
                /\ In (http_status r) [200; 404; 500])
  /\ (exists r, outcome (exec W (getLogs id) m s) = inl r
                /\ In (http_status r) [200; 404; 500])
  /\ (exists r, outcome (exec W (deleteRun id) m s) = inl r
                /\ In (http_status r) [200; 404; 500])
  /\ (exists r, outcome (exec W (getArtifacts id) m s) = inl r
                /\ In (http_status r) [404; 500]).
Proof.
  split_and!.
  - destruct (createTestRun_run W svc body m s)
      as [(code & msg & Hc & Ho & _)|(t & p & runs & now & md & _ & _ & Ho & _)];
      rewrite Ho; eexists; split; [reflexivity| |reflexivity|]; cbn;
      intuition auto.
  - keyed_cases W m s id; [status_cases W m s id md Hm|];
      eexists; (split; [reflexivity|cbn; tauto]).
  - keyed_cases W m s id; [logs_cases W m s id md Hm|];
      eexists; (split; [reflexivity|cbn; tauto]).
  - keyed_cases W m s id; [delete_cases W m s id md Hm|];
      eexists; (split; [reflexivity|cbn; tauto]).
  - keyed_cases W m s id;
      [rewrite (exec_getArtifacts_registered W m s id md Hm)|];
      eexists; (split; [reflexivity|cbn; tauto]).
Qed.

(** ** What the registry keeps *)

Lemma run_ids_preserved {S} (W : world S) (m : registry) (s : S)
    svc body id p :
  In p [createTestRun svc body; getStatus id; getLogs id; deleteRun id;
        getArtifacts id] ->
  map_Forall (fun k md => runId md = k) m ->
  map_Forall (fun k md => runId md = k) (final_registry (exec W p m s)).
Proof.
  intros Hp Hkeys. destruct Hp as [<-|[<-|[<-|[<-|[<-|[]]]]]].
  - destruct (createTestRun_run W svc body m s)
      as [(code & msg & _ & _ & -> & _)
         |(t & p & runs & now & md & _ & _ & _ & -> & _)]; [done|].
    by apply map_Forall_insert_2.
  - keyed_cases W m s id; [status_cases W m s id md Hm|]; cbn; try done.
    apply map_Forall_insert_2; [|done]. cbn. by apply Hkeys.
  - keyed_cases W m s id; [logs_cases W m s id md Hm|]; done.
  - keyed_cases W m s id; [delete_cases W m s id md Hm|]; cbn; try done.
    by apply map_Forall_delete.
  - keyed_cases W m s id;
      [rewrite (exec_getArtifacts_registered W m s id md Hm)|]; done.
Qed.

(** Stored under its own run id: when every entry of the registry is,
    every entry still is after any handler, whatever the environment. *)
Theorem registry_keys_are_run_ids {S} (W : world S) (m : registry) (s : S)
    svc body id :
  map_Forall (fun k md => runId md = k) m ->
  map_Forall (fun k md => runId md = k)
    (final_registry (exec W (createTestRun svc body) m s))
  /\ map_Forall (fun k md => runId md = k)
       (final_registry (exec W (getStatus id) m s))
  /\ map_Forall (fun k md => runId md = k)
       (final_registry (exec W (getLogs id) m s))
  /\ map_Forall (fun k md => runId md = k)
       (final_registry (exec W (deleteRun id) m s))
  /\ map_Forall (fun k md => runId md = k)
       (final_registry (exec W (getArtifacts id) m s)).
Proof.
  intros Hkeys.
  split_and!; apply (run_ids_preserved W m s svc body id); cbn; tauto.
Qed.

Lemma registry_keys_are_run_ids_witness :
  map_Forall (fun k md => runId md = k) (final_registry created)
  /\ map_Forall (fun k md => runId md = k) (final_registry refreshed_done).
Proof.
  assert (H : map_Forall (fun k md => runId md = k) (final_registry created)).
  { lazymatch goal with |- ?P => apply (@bool_decide_unpack P _) end.
    vm_compute. exact I. }
  split; [exact H|].
  pose proof (registry_keys_are_run_ids platform (final_registry created)
                (finish "alice/suite" 8 "success" (final_world created))
                alice (submission "print(1)" (JStr "suite")) created_id H)
    as (_ & H2 & _).
  exact H2.
Defined.



(** A handler that runs on its own, with no other handler taking a step
    between its start and its answer: reading logs or artifacts leaves the
    registry as it was, and refreshing a status leaves the set of
    registered runs as it was. *)
Theorem reading_handlers_keep_the_registry {S} (W : world S) (m : registry)
    (s : S) id :
  final_registry (exec W (getLogs id) m s) = m
  /\ final_registry (exec W (getArtifacts id) m s) = m
  /\ dom (final_registry (exec W (getStatus id) m s)) = dom m.
Proof.
  split_and!.
  - keyed_cases W m s id; [logs_cases W m s id md Hm|]; done.
  - keyed_cases W m s id;
      [rewrite (exec_getArtifacts_registered W m s id md Hm)|]; done.
  - keyed_cases W m s id; [status_cases W m s id md Hm|]; cbn; try done.
    rewrite dom_insert_L. apply elem_of_dom_2 in Hm.
    apply subseteq_union_1_L. by apply singleton_subseteq_l.
Qed.

(** ** Logs *)

(** Once the jobs are listed, [getLogs] answers 200 with them whatever
    becomes of the request for the log archive: a rejection only makes
    [logDownloadUrl] null. *)
Theorem missing_log_archive_is_no_error {S} (W : world S) (m : registry)
    (s : S) id md js s1 :
  m !! id = Some md ->
  answer W (GetJobs (to_template (owner md)) (to_template (repo md))
              (to_template (workflowRunId md))) s = (Resolved js, s1) ->
  outcome (exec W (getLogs id) m s) =
    inl {| http_status := 200;
           http_body :=
             LogsBody id (workflowRunId md) js
               match
                 (answer W (GetRunLogs (to_template (owner md))
                              (to_template (repo md))
                              (to_template (workflowRunId md))) s1).1
               with
               | Resolved (Some location) => JStr location
               | Resolved None => JUndefined
               | Rejected _ => JNull
               end
               ("https://github.com/" +:+ to_template (owner md)
                  +:+ "/" +:+ to_template (repo md)
                  +:+ "/actions/runs/"
                  +:+ to_template (workflowRunId md)) |}.
Proof.
  intros Hm Hjobs.
  destruct (answer W (GetRunLogs (to_template (owner md))
                        (to_template (repo md))
                        (to_template (workflowRunId md))) s1)
    as [x s2] eqn:Hlogs.
  by rewrite (exec_getLogs_listed W m s id md Hm _ _ _ _ Hjobs Hlogs).
Qed.

Lemma missing_log_archive_is_no_error_witness :
  final_registry created !! created_id
  = Some (set_status "queued" (set_conclusion JUndefined
            (set_updatedAt JUndefined finished_record)))
  /\ outcome (exec platform (getLogs created_id) (final_registry created)
               (final_world created)) =
       inl {| http_status := 200;
              http_body :=
                LogsBody created_id (JNum 8) [] JNull
                  "https://github.com/alice/suite/actions/runs/8" |}.
Proof.
  assert (Hm : final_registry created !! created_id
               = Some (set_status "queued" (set_conclusion JUndefined
                         (set_updatedAt JUndefined finished_record)))).
  { vm_compute. reflexivity. }
  split; [exact Hm|].
  assert (Hjobs : answer platform (GetJobs "alice" "suite" "8")
                    (final_world created)
                  = (Resolved [], tick round_trip (final_world created))).
  { vm_compute. reflexivity. }
  pose proof (missing_log_archive_is_no_error platform (final_registry created)
                (final_world created) created_id _ _ _ Hm Hjobs) as H.
  rewrite H. vm_compute. reflexivity.
Defined.

(** When the jobs cannot be listed, [getLogs] answers 500 and does not ask
    for the log archive at all.  The answer carries the message of what
    [getWorkflowLogs] throws: the service's text with the detail of the
    rejection or, for a rejected answer whose body is [null], the text of
    the [TypeError] raised inside [handleError]. *)
Theorem unlisted_jobs_fail_getLogs {S} (W : world S) (m : registry)
    (s : S) id md e s1 :
  m !! id = Some md ->
  answer W (GetJobs (to_template (owner md)) (to_template (repo md))
              (to_template (workflowRunId md))) s = (Rejected e, s1) ->
  exists text,
    outcome (exec W (getLogs id) m s) =
      inl {| http_status := 500; http_body := ErrorBody text |}
    /\ (if has_body e
        then exists detail,
               text = "Failed to fetch workflow logs: " +:+ detail
        else text = "Cannot read properties of null (reading 'message')")
    /\ calls (exec W (getLogs id) m s) =
         [GetJobs (to_template (owner md)) (to_template (repo md))
            (to_template (workflowRunId md))].
Proof.
  intros Hm Hjobs.
  rewrite (exec_getLogs_rejected W m s id md Hm _ _ Hjobs).
  eexists. split; [reflexivity|]. split; [|done].
  destruct e; cbn; eauto.
Qed.

Lemma unlisted_jobs_fail_getLogs_witness :
  final_registry slow_first !! created_id = Some unresolved_record
  /\ exists text,
       outcome (exec platform (getLogs created_id) (final_registry slow_first)
                  (final_world slow_first)) =
         inl {| http_status := 500; http_body := ErrorBody text |}
       /\ (exists detail, text = "Failed to fetch workflow logs: " +:+ detail)
       /\ calls (exec platform (getLogs created_id) (final_registry slow_first)
                   (final_world slow_first))
          = [GetJobs "alice" "suite" "undefined"].
Proof.
  assert (Hm : final_registry slow_first !! created_id
               = Some unresolved_record).
  { vm_compute. reflexivity. }
  split; [exact Hm|].
  assert (Hjobs : answer platform (GetJobs "alice" "suite" "undefined")
                    (final_world slow_first)
                  = (http_404, tick round_trip (final_world slow_first))).
  { vm_compute. reflexivity. }
  exact (unlisted_jobs_fail_getLogs platform (final_registry slow_first)
           (final_world slow_first) created_id unresolved_record _ _ Hm Hjobs).
Defined.

(** ** Deletion *)

(** [deleteRun] removes an entry only after the platform has confirmed the
    deletion of its repository; in every other case the registry is as it
    was. *)
Theorem entry_is_removed_only_after_deletion {S} (W : world S) (m : registry)
    (s : S) id :
  final_registry (exec W (deleteRun id) m s) = m
  \/ exists md,
       m !! id = Some md
       /\ trace (exec W (deleteRun id) m s)
          = [Event (DeleteRepo (to_template (owner md)) (to_template (repo md)))
               (Resolved tt)]
       /\ final_registry (exec W (deleteRun id) m s) = delete id m
       /\ outcome (exec W (deleteRun id) m s)
          = inl {| http_status := 200;
                   http_body :=
                     DeletedBody
                       "Test run and repository deleted successfully" |}.
Proof.
  keyed_cases W m s id; [delete_cases W m s id md Hm|]; cbn; eauto.
  right. exists md. by split_and!.
Qed.

(** On the registry that a [deleteRun] which ran on its own leaves, once
    the platform has confirmed the deletion, the run is unknown: every
    handler keyed by its id answers 404, in any environment, and makes no
    call. *)
Theorem deleted_run_is_unknown {S S'} (W : world S) (W' : world S')
    (m : registry) (s : S) (s' : S') id md s1 h :
  m !! id = Some md ->
  answer W (DeleteRepo (to_template (owner md)) (to_template (repo md))) s
  = (Resolved tt, s1) ->
  In h [getStatus; getLogs; deleteRun; getArtifacts] ->
  exec W' (h id) (final_registry (exec W (deleteRun id) m s)) s' =
    {| outcome := inl {| http_status := 404;
                         http_body := ErrorBody "Test run not found" |};
       final_registry := delete id m; final_world := s'; trace := [] |}.
Proof.
  intros Hm Hdel Hh.
  rewrite (exec_deleteRun_resolved W m s id md Hm _ Hdel). cbn.
  apply exec_keyed_unregistered; [apply lookup_delete_eq|done].
Qed.

Lemma deleted_run_is_unknown_witness :
  final_registry created !! created_id = Some queued_record
  /\ exec platform (deleteRun created_id)
       (final_registry
          (exec platform (deleteRun created_id) (final_registry created)
             (final_world created)))
       (final_world
          (exec platform (deleteRun created_id) (final_registry created)
             (final_world created))) =
     {| outcome := inl {| http_status := 404;
                          http_body := ErrorBody "Test run not found" |};
        final_registry := delete created_id (final_registry created);
        final_world :=
          final_world
            (exec platform (deleteRun created_id) (final_registry created)
               (final_world created));
        trace := [] |}.
Proof.
  assert (Hm : final_registry created !! created_id = Some queued_record).
  { vm_compute. reflexivity. }
  split; [exact Hm|].
  assert (Hdel : answer platform (DeleteRepo "alice" "suite")
                   (final_world created)
                 = (Resolved tt,
                    (answer platform (DeleteRepo "alice" "suite")
                       (final_world created)).2)).
  { vm_compute. reflexivity. }
  exact (deleted_run_is_unknown platform platform (final_registry created)
           (final_world created) _ created_id queued_record _ deleteRun
           Hm Hdel (or_intror (or_intror (or_introl eq_refl)))).
Defined.

(** The condition of the statements on handlers that run on their own: a
    [getStatus] that awaits the platform while a [deleteRun] for the same
    run is confirmed and answered stores the record again when its own
    answer arrives.  Both requests are answered 200, and the run is
    registered as before the deletion, with the status just read. *)
Theorem refresh_in_flight_undoes_deletion {S} (W : world S) (m : registry)
    (s : S) id md s1 run s2 now s3 :
  m !! id = Some md ->
  answer W (DeleteRepo (to_template (owner md)) (to_template (repo md))) s
  = (Resolved tt, s1) ->
  answer W (GetRun (to_template (owner md)) (to_template (repo md))
              (to_template (workflowRunId md))) s1 = (Resolved run, s2) ->
  answer W NewDateISO s2 = (now, s3) ->
  outcome2 (interleave W [true; false; false; true]
              (getStatus id) (deleteRun id) m s)
  = inl {| http_status := 200;
           http_body :=
             DeletedBody "Test run and repository deleted successfully" |}
  /\ (exists body,
        outcome1 (interleave W [true; false; false; true]
                    (getStatus id) (deleteRun id) m s)
        = inl {| http_status := 200; http_body := body |})
  /\ joint_registry (interleave W [true; false; false; true]
                       (getStatus id) (deleteRun id) m s)
     = <[id := set_updatedAt (JStr now)
                 (set_conclusion (of_nullable (run_conclusion run))
                    (set_status (run_status run) md))]> (delete id m).
Proof.
  intros Hm Hdel Hrun Hnow.
  unfold interleave, getStatus, deleteRun, deleteRepo. cbn.
  repeat (progress (rewrite ?Hm, ?Hdel, ?Hrun, ?Hnow; cbn)).
  split_and!; eauto.
Qed.

Lemma refresh_in_flight_undoes_deletion_witness :
  final_registry created !! created_id = Some queued_record
  /\ outcome2 refreshed_during_deletion
     = inl {| http_status := 200;
              http_body :=
                DeletedBody "Test run and repository deleted successfully" |}
  /\ ("alice/suite" ∉ sim_repos (joint_world refreshed_during_deletion))
  /\ status <$> (joint_registry refreshed_during_deletion !! created_id)
     = Some "queued".
Proof.
  assert (Hm : final_registry created !! created_id = Some queued_record)
    by (vm_compute; reflexivity).
  split; [exact Hm|].
  pose (w := run_answered_at (final_world created)).
  pose (a1 := answer w (DeleteRepo "alice" "suite") (final_world created)).
  pose (a2 := answer w (GetRun "alice" "suite" "8") a1.2).
  pose (a3 := answer w NewDateISO a2.2).
  pose (run := match a2.1 with Resolved run => run | Rejected _ => late_run end).
  assert (H1 : answer w (DeleteRepo "alice" "suite") (final_world created)
               = (Resolved tt, a1.2)) by (vm_compute; reflexivity).
  assert (H2 : answer w (GetRun "alice" "suite" "8") a1.2
               = (Resolved run, a2.2)) by (vm_compute; reflexivity).
  assert (H3 : answer w NewDateISO a2.2 = (a3.1, a3.2))
    by (vm_compute; reflexivity).
  pose proof (refresh_in_flight_undoes_deletion w (final_registry created)
                (final_world created) created_id queued_record
                a1.2 run a2.2 a3.1 a3.2 Hm H1 H2 H3) as (Ho & _ & Hreg).
  split; [exact Ho|].
  split; [vm_compute; intros H; discriminate H|].
  unfold refreshed_during_deletion. fold w. rewrite Hreg.
  rewrite lookup_insert_eq. vm_compute. reflexivity.
Defined.

(** ** Creation *)



(** A creation that is not answered 201 registers nothing. *)
Theorem failed_creation_registers_nothing {S} (W : world S) (m : registry)
    (s : S) svc body r :
  outcome (exec W (createTestRun svc body) m s) = inl r ->
  http_status r <> 201 ->
  final_registry (exec W (createTestRun svc body) m s) = m.
Proof.
  intros Ho Hne.
  destruct (createTestRun_run W svc body m s)
    as [(code & msg' & _ & _ & Hreg & _)
       |(t & prefix & runs & now & md & _ & _ & Ho' & _)]; [done|].
  rewrite Ho in Ho'. inversion Ho'; subst. by cbn in Hne.
Qed.

Lemma failed_creation_registers_nothing_witness :
  outcome creation_without_template
  = inl {| http_status := 500;
           http_body :=
             ErrorBody
               "ENOENT: no such file or directory, open 'config/workflow-template.yml'" |}
  /\ final_registry creation_without_template = ∅.
Proof.
  assert (Ho : outcome creation_without_template
               = inl {| http_status := 500;
                        http_body :=
                          ErrorBody
                            "ENOENT: no such file or directory, open 'config/workflow-template.yml'" |}).
  { vm_compute. reflexivity. }
  split; [exact Ho|].
  pose proof (failed_creation_registers_nothing platform ∅ no_template alice
                (submission "print(1)" (JStr "suite"))) as H.
  unfold creation_without_template in Ho. specialize (H _ Ho).
  apply H. cbn. discriminate.
Defined.

(** ** The service *)

(** Whatever fails in a service method, what it throws is a plain [Error]
    whose message starts with that method's own text; unless one of its
    requests was rejected with an answer whose body is [null]: then the
    [TypeError] raised inside [handleError] is thrown, without that
    text. *)
Theorem service_errors_are_wrapped_unless_null_body {S} (W : world S)
    (m : registry) (s : S) svc (repoName owner repo runId : jsval) isPrivate
    files message branch file inputs ref limit :
  wrapped "Failed to create repository"
    (exec W (createRepo svc repoName isPrivate) m s)
  /\ wrapped "Failed to commit files"
       (exec W (commitFiles owner repo files message branch) m s)
  /\ wrapped "Failed to trigger workflow"
       (exec W (triggerWorkflow owner repo file inputs ref) m s)
  /\ wrapped "Failed to fetch workflow runs"
       (exec W (getWorkflowRuns owner repo limit) m s)
  /\ wrapped "Failed to fetch workflow run"
       (exec W (getWorkflowRunById owner repo runId) m s)
  /\ wrapped "Failed to fetch workflow logs"
       (exec W (getWorkflowLogs owner repo runId) m s)
  /\ wrapped "Failed to delete repository"
       (exec W (deleteRepo owner repo) m s).
Proof.
  assert (Hw : forall {A} (res : run_result S A) e text,
             In (Some e) (map rejection (trace res)) ->
             outcome res = inr (handleError e text) ->
             wrapped text res).
  { intros A res e text Hin Ho. unfold wrapped. rewrite Ho.
    destruct e as [st dm stx|st stx|msg]; cbn; eauto 6. }
  split_and!.
  - destruct (answer W (PostUserRepos repoName
                          "Automated Selenium test execution repository"
                          isPrivate true) s) as [[data|e] s1] eqn:E.
    { unfold wrapped. cbn. by rewrite E. }
    destruct (bool_decide (response_status e = Some 422)) eqn:E422.
    { unfold wrapped. cbn. rewrite E. cbn. by rewrite E422. }
    apply (Hw _ _ e); cbn; rewrite E; cbn; [by left|by rewrite E422].
  - destruct (commitFiles_run W owner repo files message branch m s)
      as (_ & _ & [(e & Ho & Hin & _)
                  |(latest & base & shas & tree & c & x & _ & Ht & Ho)]).
    + by apply (Hw _ _ e).
    + destruct x as [u|e]; [unfold wrapped; by rewrite Ho|].
      apply (Hw _ _ e); [|done].
      rewrite Ht, !map_app. apply in_or_app. right.
      apply in_or_app. right. cbn. auto.
  - destruct (answer W (SetTimeout 2000) s) as [[] s1] eqn:E1.
    destruct (answer W (PostDispatch (to_template owner) (to_template repo)
                          file ref inputs) s1) as [[[]|e] s2] eqn:E2.
    { unfold wrapped. cbn. rewrite E1. cbn. rewrite E2. cbn.
      by destruct (answer W _ s2) as [[] s3]. }
    apply (Hw _ _ e); cbn; rewrite E1; cbn; rewrite E2; cbn; auto.
  - destruct (answer W (GetRuns (to_template owner) (to_template repo) limit)
                s) as [[runs|e] s1] eqn:E.
    { unfold wrapped. cbn. by rewrite E. }
    apply (Hw _ _ e); cbn; rewrite E; cbn; auto.
  - destruct (answer W (GetRun (to_template owner) (to_template repo)
                          (to_template runId)) s) as [[run|e] s1] eqn:E.
    { unfold wrapped. cbn. by rewrite E. }
    apply (Hw _ _ e); cbn; rewrite E; cbn; auto.
  - destruct (answer W (GetJobs (to_template owner) (to_template repo)
                          (to_template runId)) s) as [[js|e] s1] eqn:E.
    { unfold wrapped. cbn. rewrite E. cbn.
      by destruct (answer W _ s1) as [x s2]. }
    apply (Hw _ _ e); cbn; rewrite E; cbn; auto.
  - destruct (answer W (DeleteRepo (to_template owner) (to_template repo)) s)
      as [[[]|e] s1] eqn:E.
    { unfold wrapped. cbn. by rewrite E. }
    apply (Hw _ _ e); cbn; rewrite E; cbn; auto.
Qed.

(** A rejection with status 422 is not an error for [createRepo], whatever
    else the rejection carries: the repository of the name asked for, a
    string, is taken to exist under the configured user, with [main] as
    its default branch. *)
Theorem name_collision_is_not_an_error {S} (W : world S) (m : registry)
    (s : S) svc (name : string) isPrivate e s1 :
  answer W (PostUserRepos (JStr name)
              "Automated Selenium test execution repository" isPrivate true) s
  = (Rejected e, s1) ->
  response_status e = Some 422 ->
  exec W (createRepo svc (JStr name) isPrivate) m s =
    {| outcome :=
         inl {| fullName := githubUsername svc +:+ "/" +:+ name;
                defaultBranch := "main";
                alreadyExists := true |};
       final_registry := m;
       final_world := s1;
       trace :=
         [Event (PostUserRepos (JStr name)
                   "Automated Selenium test execution repository" isPrivate true)
            (Rejected e)] |}.
Proof.
  intros Hans Hst. unfold createRepo. cbn. rewrite Hans.
  by rewrite bool_decide_eq_true_2.
Qed.

Lemma name_collision_is_not_an_error_witness :
  answer platform
    (PostUserRepos (JStr "suite")
       "Automated Selenium test execution repository" true true) seeded
  = (http_422 "Repository creation failed.", tick round_trip seeded)
  /\ outcome (exec platform (createRepo alice (JStr "suite") true) ∅ seeded)
     = inl {| fullName := "alice/suite"; defaultBranch := "main";
              alreadyExists := true |}.
Proof.
  assert (Hans : answer platform
                   (PostUserRepos (JStr "suite")
                      "Automated Selenium test execution repository" true true)
                   seeded
                 = (http_422 "Repository creation failed.",
                    tick round_trip seeded)).
  { vm_compute. reflexivity. }
  split; [exact Hans|].
  exact (f_equal outcome
           (name_collision_is_not_an_error platform ∅ seeded alice
              "suite" true _ _ Hans eq_refl)).
Defined.

(** Any other rejection of the creation is thrown. *)
Lemma createRepo_other_rejection {S} (W : world S) (m : registry)
    (s : S) svc repoName isPrivate e s1 :
  answer W (PostUserRepos repoName
              "Automated Selenium test execution repository" isPrivate true) s
  = (Rejected e, s1) ->
  response_status e <> Some 422 ->
  outcome (exec W (createRepo svc repoName isPrivate) m s)
  = inr (handleError e "Failed to create repository").
Proof.
  intros Hans Hne. unfold createRepo. cbn. rewrite Hans.
  by rewrite bool_decide_eq_false_2.
Qed.

(** ** The commit pipeline once more *)



(** ** Owner and repository *)

Lemma split_on_nonempty sep s : split_on sep s <> [].
Proof.
  destruct s as [|c rest]; cbn; [done|].
  destruct (bool_decide (c = sep)); [done|].
  by destruct (split_on sep rest).
Qed.

(** Splitting loses nothing: joining the pieces with the separator gives
    the text back.  In particular there is always a first piece, so the
    [owner] destructured from a full name is never [undefined]. *)
Theorem split_then_join (sep : ascii) (s : string) :
  join (String sep "") (split_on sep s) = s
  /\ exists first rest, split_on sep s = first :: rest.
Proof.
  split.
  - induction s as [|c rest IH]; cbn; [done|].
    destruct (bool_decide (c = sep)) eqn:Hc.
    + apply bool_decide_eq_true_1 in Hc. subst c.
      pose proof (split_on_nonempty sep rest) as Hne.
      destruct (split_on sep rest) as [|w ws]; [done|].
      cbn. cbn in IH. by rewrite IH.
    + pose proof (split_on_nonempty sep rest) as Hne.
      destruct (split_on sep rest) as [|w ws]; [done|].
      destruct ws as [|w' ws]; cbn in *; by rewrite <- IH.
  - pose proof (split_on_nonempty sep s).
    destruct (split_on sep s); [done|eauto].
Qed.

Lemma split_on_without sep s :
  includes sep s = false -> split_on sep s = [s].
Proof.
  induction s as [|c rest IH]; cbn; [done|].
  intros H. apply orb_false_iff in H as [Hc Hrest].
  rewrite Hc. by rewrite IH.
Qed.

Lemma split_on_app sep a b :
  includes sep a = false ->
  split_on sep (a +:+ String sep b) = a :: split_on sep b.
Proof.
  induction a as [|c rest IH]; simpl.
  - intros _. by rewrite bool_decide_eq_true_2.
  - intros H. apply orb_false_iff in H as [Hc Hrest].
    rewrite Hc. by rewrite IH.
Qed.

Lemma split_owner_repo (o r : string) :
  includes "/" o = false -> includes "/" r = false ->
  split_on "/" (o +:+ "/" +:+ r) = [o; r].
Proof.
  intros Ho Hr. change (o +:+ "/" +:+ r) with (o +:+ String "/" r).
  by rewrite (split_on_app "/" o r Ho), (split_on_without "/" r Hr).
Qed.

(** A full name made of an owner and a repository name that hold no slash
    is taken apart into exactly these two; a repository name with a slash
    in it is cut at that slash. *)
Theorem full_name_is_taken_apart (o r : string) :
  includes "/" o = false ->
  destructure (split_on "/" (o +:+ "/" +:+ r)) 0 = JStr o
  /\ destructure (split_on "/" (o +:+ "/" +:+ r)) 1
     = JStr (default "" (head (split_on "/" r)))
  /\ (includes "/" r = false ->
      destructure (split_on "/" (o +:+ "/" +:+ r)) 1 = JStr r).
Proof.
  intros Ho.
  change (o +:+ "/" +:+ r) with (o +:+ String "/" r).
  rewrite (split_on_app "/" o r Ho).
  pose proof (split_on_nonempty "/" r) as Hne.
  split_and!.
  - done.
  - unfold destructure. cbn. by destruct (split_on "/" r).
  - intros Hr. by rewrite (split_on_without "/" r Hr).
Qed.

Lemma full_name_is_taken_apart_witness :
  includes "/" "alice" = false
  /\ destructure (split_on "/" ("alice" +:+ "/" +:+ "tests/smoke")) 0
     = JStr "alice"
  /\ destructure (split_on "/" ("alice" +:+ "/" +:+ "tests/smoke")) 1
     = JStr "tests".
Proof.
  assert (Ho : includes "/" "alice" = false) by reflexivity.
  split; [exact Ho|].
  destruct (full_name_is_taken_apart "alice" "tests/smoke" Ho) as (H0 & H1 & _).
  split; [exact H0|exact H1].
Defined.

(** A full name without a slash leaves [repo] undefined. *)
Lemma no_slash_no_repo (s : string) :
  includes "/" s = false ->
  destructure (split_on "/" s) 0 = JStr s
  /\ destructure (split_on "/" s) 1 = JUndefined.
Proof. intros H. by rewrite (split_on_without "/" s H). Qed.

(** When the repository asked for exists already, [createTestRun] goes on
    under the configured user (whose name holds no slash) with the
    repository named by what comes before the first slash of the name
    asked for, which is that name when it holds no slash: its next request
    to the platform is for the head of [main] there. *)
Theorem existing_repository_is_committed_to {S} (W : world S) (m : registry)
    (s : S) svc body script name t s1 e s2 text s3 :
  testScript body = JStr script -> script <> "" ->
  body_repoName body = JStr name -> name <> "" ->
  includes "/" (githubUsername svc) = false ->
  answer W DateNow s = (t, s1) ->
  answer W (PostUserRepos (JStr name)
              "Automated Selenium test execution repository" true true) s1
  = (Rejected e, s2) ->
  response_status e = Some 422 ->
  answer W (ReadFileSync workflowPath) s2 = (inr text, s3) ->
  calls (exec W (createTestRun svc body) m s) !! 3%nat
  = Some (GetRef (githubUsername svc)
            (default "" (head (split_on "/" name))) "main")
  /\ (includes "/" name = false ->
      calls (exec W (createTestRun svc body) m s) !! 3%nat
      = Some (GetRef (githubUsername svc) name "main")).
Proof.
  intros Hts Hscript Hname Hne Huser Hnow Hrepo Hst Hfile.
  assert (Hcall : calls (exec W (createTestRun svc body) m s) !! 3%nat
                  = Some (GetRef (githubUsername svc)
                            (default "" (head (split_on "/" name))) "main")).
  { remember (default "" (head (split_on "/" name))) as first eqn:Hfirst.
    unfold createTestRun. cbv zeta. rewrite Hts, Hname.
    destruct script as [|c script]; [done|].
    destruct name as [|c' name]; [done|].
    rewrite bool_decide_eq_true_2 by done.
    unfold calls. cbn. rewrite Hnow. cbn. rewrite Hrepo. cbn.
    rewrite (bool_decide_eq_true_2 _ Hst). cbn.
    rewrite Hfile. cbn.
    change ("/" +:+ String c' name) with (String "/" (String c' name)).
    rewrite (split_on_app "/" (githubUsername svc) (String c' name) Huser).
    pose proof (split_on_nonempty "/" (String c' name)) as Hparts.
    destruct (split_on "/" (String c' name)) as [|piece others] eqn:Hsplit;
      [done|].
    cbn in Hfirst. subst first.
    cbn. by destruct (answer W _ s3) as [x s4]. }
  split; [exact Hcall|].
  intros Hslash. rewrite Hcall.
  by rewrite (split_on_without "/" name Hslash).
Qed.

Lemma existing_repository_is_committed_to_witness :
  calls slow_second !! 3%nat = Some (GetRef "alice" "suite" "main")
  /\ calls slashed_second !! 3%nat = Some (GetRef "alice" "tests" "main").
Proof.
  split.
  - pose (a1 := answer platform DateNow (final_world slow_first)).
    pose (a2 := answer platform
                  (PostUserRepos (JStr "suite")
                     "Automated Selenium test execution repository" true true)
                  a1.2).
    pose (a3 := answer platform (ReadFileSync workflowPath) a2.2).
    pose (text := match a3.1 with inr text => text | inl _ => "" end).
    assert (H1 : answer platform DateNow (final_world slow_first)
                 = (a1.1, a1.2)) by (vm_compute; reflexivity).
    assert (H2 : answer platform
                   (PostUserRepos (JStr "suite")
                      "Automated Selenium test execution repository" true true)
                   a1.2
                 = (Rejected (HttpError 422 (Some "Repository creation failed.")
                                "Unprocessable Entity"), a2.2))
      by (vm_compute; reflexivity).
    assert (H3 : answer platform (ReadFileSync workflowPath) a2.2
                 = (inr text, a3.2)) by (vm_compute; reflexivity).
    assert (Hs : "print(2)" <> "") by discriminate.
    assert (Hn : "suite" <> "") by discriminate.
    unfold slow_second.
    exact (proj2 (existing_repository_is_committed_to platform
             (final_registry slow_first) (final_world slow_first) alice
             (submission "print(2)" (JStr "suite")) "print(2)" "suite"
             a1.1 a1.2 (HttpError 422 (Some "Repository creation failed.")
                          "Unprocessable Entity") a2.2 text a3.2
             eq_refl Hs eq_refl Hn eq_refl H1 H2 eq_refl H3) eq_refl).
  - pose (a1 := answer platform DateNow (final_world slashed_first)).
    pose (a2 := answer platform
                  (PostUserRepos (JStr "tests/smoke")
                     "Automated Selenium test execution repository" true true)
                  a1.2).
    pose (a3 := answer platform (ReadFileSync workflowPath) a2.2).
    pose (text := match a3.1 with inr text => text | inl _ => "" end).
    assert (H1 : answer platform DateNow (final_world slashed_first)
                 = (a1.1, a1.2)) by (vm_compute; reflexivity).
    assert (H2 : answer platform
                   (PostUserRepos (JStr "tests/smoke")
                      "Automated Selenium test execution repository" true true)
                   a1.2
                 = (Rejected (HttpError 422 (Some "Repository creation failed.")
                                "Unprocessable Entity"), a2.2))
      by (vm_compute; reflexivity).
    assert (H3 : answer platform (ReadFileSync workflowPath) a2.2
                 = (inr text, a3.2)) by (vm_compute; reflexivity).
    assert (Hs : "print(2)" <> "") by discriminate.
    assert (Hn : "tests/smoke" <> "") by discriminate.
    assert (Hhead : default "" (head (split_on "/" "tests/smoke")) = "tests")
      by (vm_compute; reflexivity).
    unfold slashed_second. rewrite <- Hhead.
    exact (proj1 (existing_repository_is_committed_to platform
             (final_registry slashed_first) (final_world slashed_first) alice
             (submission "print(2)" (JStr "tests/smoke")) "print(2)"
             "tests/smoke"
             a1.1 a1.2 (HttpError 422 (Some "Repository creation failed.")
                          "Unprocessable Entity") a2.2 text a3.2
             eq_refl Hs eq_refl Hn eq_refl H1 H2 eq_refl H3)).
Defined.

(** ** Footprints *)

Lemma only_calls_exec {S A} (W : world S) allowed (p : prog A) m s :
  only_calls allowed p ->
  Forall (fun r => allowed r = true) (calls (exec W p m s)).
Proof.
  unfold calls. revert m s.
  induction p as [a|e|k cont IH|k v cont IH|k cont IH|r cont IH];
    intros m s Hp; cbn in *; try by constructor.
  - apply IH, Hp.
  - by apply IH.
  - by apply IH.
  - destruct Hp as [Hr Hc]. destruct (answer W r s) as [x s']. cbn.
    constructor; [done|]. by apply IH.
Qed.

(** Case analysis on what a program branches on, down to its calls. *)
Ltac footprint :=
  cbn;
  repeat first
    [ exact I
    | reflexivity
    | split
    | intro
    | match goal with
      | |- context [match ?x with _ => _ end] => destruct x; cbn
      end
    | progress (unfold rethrow; cbn) ].

(** [createTestRun] reads the clock and the template, waits, creates a
    repository, writes git objects, moves a branch, dispatches and lists
    runs; in no execution does it delete a repository or ask for one run,
    its jobs or its logs. *)
Theorem creation_never_deletes {S} (W : world S) (m : registry) (s : S)
    svc body :
  Forall (fun r => creation_call r = true)
    (calls (exec W (createTestRun svc body) m s)).
Proof.
  apply only_calls_exec. unfold createTestRun. cbv zeta. footprint.
Qed.

(** The handlers that report on a run change nothing on the platform:
    [getStatus] and [getLogs] send no request that writes, and
    [getArtifacts] sends no request at all. *)
Theorem reading_handlers_write_nothing {S} (W : world S) (m : registry)
    (s : S) id :
  Forall (fun r => writes r = false) (calls (exec W (getStatus id) m s))
  /\ Forall (fun r => writes r = false) (calls (exec W (getLogs id) m s))
  /\ calls (exec W (getArtifacts id) m s) = [].
Proof.
  split_and!.
  - eapply Forall_impl;
      [apply (only_calls_exec W (fun r => negb (writes r)));
       unfold getStatus; footprint|].
    intros r Hr. by apply negb_true_iff in Hr.
  - eapply Forall_impl;
      [apply (only_calls_exec W (fun r => negb (writes r)));
       unfold getLogs; footprint|].
    intros r Hr. by apply negb_true_iff in Hr.
  - unfold getArtifacts. cbn. by destruct (m !! id).
Qed.

(** ** The [Map] in insertion order *)

Lemma map_get_lookup k (l : entries) :
  map_get k l = (list_to_map l : registry) !! k.
Proof.
  induction l as [|[k' v] l IH]; cbn; [done|].
  case_bool_decide as Hk; [subst; by rewrite lookup_insert_eq|].
  rewrite lookup_insert_ne; [done|congruence].
Qed.

Lemma map_set_insert k v (l : entries) :
  (list_to_map (map_set k v l) : registry) = <[k := v]> (list_to_map l).
Proof.
  induction l as [|[k' v'] l IH]; cbn; [done|].
  case_bool_decide as Hk; cbn.
  - subst. by rewrite insert_insert_eq.
  - rewrite IH. apply insert_insert_ne. congruence.
Qed.

(** [set] keeps the place of a key already there and appends a new one. *)
Lemma map_set_keys k v (l : entries) :
  (map_set k v l).*1
  = (l.*1 ++ (if bool_decide (k ∈ l.*1) then [] else [k]))%list.
Proof.
  induction l as [|[k' v'] l IH]; cbn; [done|].
  destruct (decide (k = k')) as [->|Hne].
  - rewrite (bool_decide_eq_true_2 (k' = k')) by done. cbn.
    rewrite bool_decide_eq_true_2 by (apply elem_of_cons; by left).
    by rewrite app_nil_r.
  - rewrite (bool_decide_eq_false_2 (k = k')) by done. cbn.
    rewrite IH. f_equal. f_equal.
    rewrite (bool_decide_ext (k ∈ k' :: l.*1) (k ∈ l.*1)); [done|].
    rewrite elem_of_cons. split; [intros [?|?]; done|by right].
Qed.

Lemma map_set_NoDup k v (l : entries) :
  NoDup l.*1 -> NoDup (map_set k v l).*1.
Proof.
  intros Hl. rewrite map_set_keys. case_bool_decide as Hk.
  - by rewrite app_nil_r.
  - apply NoDup_app. split_and!; [done| |apply NoDup_singleton].
    intros x Hx Hx'. apply list_elem_of_singleton in Hx'. by subst.
Qed.

Lemma map_delete_keys k (l : entries) x :
  x ∈ (map_delete k l).*1 -> x ∈ l.*1.
Proof.
  induction l as [|[k' v'] l IH]; cbn; [done|].
  case_bool_decide; cbn; rewrite !elem_of_cons; [by right|].
  intros [?|?]; [by left|right; by apply IH].
Qed.

Lemma map_delete_NoDup k (l : entries) :
  NoDup l.*1 -> NoDup (map_delete k l).*1.
Proof.
  induction l as [|[k' v'] l IH]; cbn; [done|].
  intros Hl. apply NoDup_cons in Hl as [Hk' Hl].
  case_bool_decide; cbn; [done|].
  apply NoDup_cons. split; [|by apply IH].
  intros Hin. by apply map_delete_keys in Hin.
Qed.

Lemma map_delete_delete k (l : entries) :
  NoDup l.*1 ->
  (list_to_map (map_delete k l) : registry) = delete k (list_to_map l).
Proof.
  induction l as [|[k' v'] l IH]; cbn; [by rewrite delete_empty|].
  intros Hl. apply NoDup_cons in Hl as [Hk' Hl].
  case_bool_decide as Hk; cbn.
  - subst. rewrite delete_insert_eq.
    symmetry. apply delete_id. by apply not_elem_of_list_to_map_1.
  - rewrite IH by done. symmetry. apply delete_insert_ne. congruence.
Qed.

(** The registry of [exec] is the [Map] without its order: on a [Map]
    whose keys are distinct both executors give the same result. *)
Lemma exec_ordered_exec {S A} (W : world S) (p : prog A) (l : entries) s :
  NoDup l.*1 ->
  o_outcome (exec_ordered W p l s) = outcome (exec W p (list_to_map l) s)
  /\ o_world (exec_ordered W p l s) = final_world (exec W p (list_to_map l) s)
  /\ o_trace (exec_ordered W p l s) = trace (exec W p (list_to_map l) s)
  /\ NoDup (o_entries (exec_ordered W p l s)).*1
  /\ list_to_map (o_entries (exec_ordered W p l s))
     = final_registry (exec W p (list_to_map l) s).
Proof.
  revert l s.
  induction p as [a|e|k cont IH|k v cont IH|k cont IH|r cont IH];
    intros l s Hl; cbn; try done.
  - rewrite <- map_get_lookup. by apply IH.
  - rewrite <- map_set_insert. apply IH. by apply map_set_NoDup.
  - rewrite <- map_delete_delete by done. apply IH. by apply map_delete_NoDup.
  - destruct (answer W r s) as [x s']. cbn.
    destruct (IH x l s' Hl) as (Ho & Hw & Ht & Hn & Hm).
    by rewrite Ht.
Qed.

Lemma well_keyed_registry (l : entries) :
  well_keyed l ->
  map_Forall (fun k md => runId md = k) (list_to_map l : registry).
Proof.
  intros [_ Hl] k md Hk. apply elem_of_list_to_map_2 in Hk.
  rewrite Forall_forall in Hl. by apply (Hl (k, md)).
Qed.

Lemma registry_well_keyed (l : entries) :
  NoDup l.*1 ->
  map_Forall (fun k md => runId md = k) (list_to_map l : registry) ->
  well_keyed l.
Proof.
  intros Hn Hm. split; [done|]. apply Forall_forall. intros [k md] Hin.
  apply (Hm k md). by apply elem_of_list_to_map_1.
Qed.

Lemma well_keyed_rows (l : entries) :
  well_keyed l ->
  NoDup (map row_runId (runs_rows (listRuns (map_values l)))).
Proof.
  intros [Hn Hl]. unfold listRuns, map_values. cbn.
  replace (map row_runId (map row_of l.*2)) with l.*1; [done|].
  clear Hn. induction Hl as [|[k md] l Hk Hl IH]; cbn in *; [done|].
  by rewrite Hk, IH.
Qed.

(** The handlers keep the entries well keyed. *)
Lemma route_well_keyed {S} (W : world S) svc req (l : entries) (s : S) :
  well_keyed l -> well_keyed (route W svc req l s).1.2.
Proof.
  intros Hl. pose proof Hl as [Hn _].
  pose proof (well_keyed_registry l Hl) as Hm.
  destruct req as [body|id|id| |id];
    unfold route; cbv beta zeta iota; cbn [fst snd]; try done.
  - destruct (exec_ordered_exec W (createTestRun svc body) l s Hn)
      as (_ & _ & _ & Hn' & Hm').
    apply registry_well_keyed; [done|]. rewrite Hm'.
    by apply (run_ids_preserved W _ s svc body "" (createTestRun svc body));
      [cbn; tauto|].
  - destruct (exec_ordered_exec W (getStatus id) l s Hn)
      as (_ & _ & _ & Hn' & Hm').
    apply registry_well_keyed; [done|]. rewrite Hm'.
    by apply (run_ids_preserved W _ s svc
                (submission "" JUndefined) id (getStatus id));
      [cbn; tauto|].
  - destruct (exec_ordered_exec W (getLogs id) l s Hn)
      as (_ & _ & _ & Hn' & Hm').
    apply registry_well_keyed; [done|]. rewrite Hm'.
    by apply (run_ids_preserved W _ s svc
                (submission "" JUndefined) id (getLogs id));
      [cbn; tauto|].
  - destruct (exec_ordered_exec W (deleteRun id) l s Hn)
      as (_ & _ & _ & Hn' & Hm').
    apply registry_well_keyed; [done|]. rewrite Hm'.
    by apply (run_ids_preserved W _ s svc
                (submission "" JUndefined) id (deleteRun id));
      [cbn; tauto|].
Qed.

Lemma session_answers {S} (W : world S) svc reqs (l : entries) (s : S) a :
  well_keyed l ->
  In a (session W svc reqs l s).1.1 ->
  match a with
  | Json _ => True
  | RunList r => NoDup (map row_runId (runs_rows r))
  | Uncaught _ => False
  end.
Proof.
  revert l s.
  induction reqs as [|req rest IH]; intros l s Hl; cbn [session]; [done|].
  pose proof (route_well_keyed W svc req l s Hl) as Hl'.
  destruct (route W svc req l s) as [[a' l'] s'] eqn:Hroute. cbn in Hl'.
  specialize (IH l' s' Hl').
  destruct (session W svc rest l' s') as [[answers l''] s'']. cbn in *.
  intros [<-|Hin]; [|by apply IH].
  pose proof Hl as [Hn _].
  destruct req as [body|id|id| |id];
    unfold route in Hroute; cbv beta zeta iota in Hroute.
  - destruct (exec_ordered_exec W (createTestRun svc body) l s Hn) as (Ho & _).
    destruct (handler_answers W (list_to_map l) s svc body ""
                (createTestRun svc body)) as [r Hr]; [cbn; tauto|].
    rewrite Ho, Hr in Hroute. by inversion Hroute.
  - destruct (exec_ordered_exec W (getStatus id) l s Hn) as (Ho & _).
    destruct (handler_answers W (list_to_map l) s svc
                (submission "" JUndefined) id (getStatus id)) as [r Hr];
      [cbn; tauto|].
    rewrite Ho, Hr in Hroute. by inversion Hroute.
  - destruct (exec_ordered_exec W (getLogs id) l s Hn) as (Ho & _).
    destruct (handler_answers W (list_to_map l) s svc
                (submission "" JUndefined) id (getLogs id)) as [r Hr];
      [cbn; tauto|].
    rewrite Ho, Hr in Hroute. by inversion Hroute.
  - inversion Hroute; subst. by apply well_keyed_rows.
  - destruct (exec_ordered_exec W (deleteRun id) l s Hn) as (Ho & _).
    destruct (handler_answers W (list_to_map l) s svc
                (submission "" JUndefined) id (deleteRun id)) as [r Hr];
      [cbn; tauto|].
    rewrite Ho, Hr in Hroute. by inversion Hroute.
Qed.

(** From an empty registry, whatever requests are handled one after the
    other and whatever the platform answers: no request is left without
    an answer, and every answer of [GET /api/runs] shows each run id
    once. *)
Theorem run_list_shows_each_run_once {S} (W : world S) svc
    (reqs : list api_request) (s : S) :
  Forall (fun a => match a with
                   | Json _ => True
                   | RunList r => NoDup (map row_runId (runs_rows r))
                   | Uncaught _ => False
                   end)
    (session W svc reqs [] s).1.1.
Proof.
  apply Forall_forall. intros a Hin.
  apply (session_answers W svc reqs [] s a).
  - split; [apply NoDup_nil_2|constructor].
  - by apply list_elem_of_In.
Qed.

(** With requests handled one after the other: on the entries a creation
    answered [201] leaves, which is what a [GET /api/runs] that directly
    follows it lists, the run has a row with the ids and the repository of
    the answer, as [queued] and without a conclusion. *)
Theorem created_run_is_listed {S} (W : world S) svc body (l l' : entries)
    (s s' : S) id wid repository url wurl st msg :
  NoDup l.*1 ->
  route W svc (ApiCreateTestRun body) l s
  = (Json {| http_status := 201;
             http_body := CreatedBody id wid repository url wurl st msg |},
     l', s') ->
  exists row,
    In row (runs_rows (listRuns (map_values l')))
    /\ row_runId row = id
    /\ row_workflowRunId row = wid
    /\ row_repository row = repository
    /\ row_status row = "queued"
    /\ row_conclusion row = JUndefined.
Proof.
  intros Hn Hroute.
  destruct (exec_ordered_exec W (createTestRun svc body) l s Hn)
    as (Ho & _ & _ & Hn' & Hm').
  unfold route in Hroute. cbv beta zeta iota in Hroute.
  rewrite Ho in Hroute.
  destruct (createTestRun_run W svc body (list_to_map l) s)
    as [(code & msg' & Hc & Ho' & _)
       |(t & p & runs & now & md & Ht & _ & Ho' & Hreg & _ & _ & Hst & Hcc)].
  { rewrite Ho' in Hroute. inversion Hroute. }
  rewrite Ho' in Hroute. inversion Hroute; subst.
  rewrite Hreg in Hm'.
  assert (Hin : (runId md, md) ∈
                o_entries (exec_ordered W (createTestRun svc body) l s)).
  { apply elem_of_list_to_map_2. rewrite Hm'. apply lookup_insert_eq. }
  exists (row_of md). split_and!; try done.
  unfold listRuns, map_values. cbn. apply in_map.
  apply list_elem_of_In.
  by apply (list_elem_of_fmap_2 snd) in Hin.
Qed.

Lemma created_run_is_listed_witness :
  exists row,
    In row (runs_rows (listRuns (map_values
              (route platform alice
                 (ApiCreateTestRun (submission "print(1)" (JStr "suite")))
                 [] (fresh "alice" 1000)).1.2)))
    /\ row_runId row = created_id
    /\ row_workflowRunId row = JNum 8
    /\ row_repository row = "alice/suite"
    /\ row_status row = "queued"
    /\ row_conclusion row = JUndefined.
Proof.
  pose (res := route platform alice
                 (ApiCreateTestRun (submission "print(1)" (JStr "suite")))
                 [] (fresh "alice" 1000)).
  assert (Hroute :
    route platform alice
      (ApiCreateTestRun (submission "print(1)" (JStr "suite")))
      [] (fresh "alice" 1000)
    = (Json {| http_status := 201;
               http_body :=
                 CreatedBody created_id (JNum 8) "alice/suite"
                   "https://github.com/alice/suite"
                   (JStr "https://github.com/alice/suite/actions/runs/8")
                   "queued"
                   "Test run created and workflow triggered successfully" |},
       res.1.2, res.2)) by (vm_compute; reflexivity).
  exact (created_run_is_listed platform alice
           (submission "print(1)" (JStr "suite")) [] res.1.2
           (fresh "alice" 1000) res.2 created_id (JNum 8) "alice/suite"
           "https://github.com/alice/suite"
           (JStr "https://github.com/alice/suite/actions/runs/8")
           "queued" "Test run created and workflow triggered successfully"
           (NoDup_nil_2 (A:=string)) Hroute).
Defined.

(** With requests handled one after the other: on the entries a deletion
    answered [200] leaves, which is what a [GET /api/runs] that directly
    follows it lists, the run has no row. *)
Theorem deleted_run_is_not_listed {S} (W : world S) svc (l l' : entries)
    (s s' : S) id msg :
  well_keyed l ->
  route W svc (ApiDeleteRun id) l s
  = (Json {| http_status := 200; http_body := DeletedBody msg |}, l', s') ->
  Forall (fun row => row_runId row <> id)
    (runs_rows (listRuns (map_values l'))).
Proof.
  intros Hl Hroute. apply List.Forall_forall. intros row Hrow.
  pose proof Hl as [Hn _].
  pose proof (route_well_keyed W svc (ApiDeleteRun id) l s Hl) as Hl'.
  rewrite Hroute in Hl'. cbn [fst snd] in Hl'.
  destruct (exec_ordered_exec W (deleteRun id) l s Hn)
    as (Ho & _ & _ & _ & Hm').
  unfold route in Hroute. cbv beta zeta iota in Hroute. rewrite Ho in Hroute.
  assert (Hgone : (list_to_map l' : registry) !! id = None).
  { destruct ((list_to_map l : registry) !! id) as [md|] eqn:Hm.
    - revert Hroute Hm'. delete_cases W (list_to_map l : registry) s id md Hm;
        cbn; intros Hroute Hm'; inversion Hroute; subst.
      rewrite Hm'. apply lookup_delete_eq.
    - revert Hroute.
      rewrite (exec_keyed_unregistered W _ s id Hm deleteRun) by (cbn; tauto).
      cbn. intros Hroute. inversion Hroute. }
  unfold listRuns, map_values in Hrow. cbn in Hrow.
  apply in_map_iff in Hrow as (md & <- & Hmd).
  apply list_elem_of_In, list_elem_of_fmap in Hmd as ([k md'] & -> & Hin).
  cbn. destruct Hl' as [Hn' Hk'].
  rewrite Forall_forall in Hk'. pose proof (Hk' _ Hin) as Hk. cbn in Hk.
  rewrite Hk. intros ->.
  apply (elem_of_list_to_map_1 (M:=gmap string)) in Hin; [|done].
  by rewrite Hgone in Hin.
Qed.

Lemma deleted_run_is_not_listed_witness :
  length (runs_rows (listRuns (map_values two_runs.1.2))) = 2%nat
  /\ length (runs_rows (listRuns (map_values
               (route platform alice (ApiDeleteRun created_id)
                  two_runs.1.2 two_runs.2).1.2))) = 1%nat
  /\ Forall (fun row => row_runId row <> created_id)
       (runs_rows (listRuns (map_values
          (route platform alice (ApiDeleteRun created_id)
             two_runs.1.2 two_runs.2).1.2))).
Proof.
  pose (res := route platform alice (ApiDeleteRun created_id)
                 two_runs.1.2 two_runs.2).
  assert (Hroute :
    route platform alice (ApiDeleteRun created_id) two_runs.1.2 two_runs.2
    = (Json {| http_status := 200;
               http_body :=
                 DeletedBody "Test run and repository deleted successfully" |},
       res.1.2, res.2)) by (vm_compute; reflexivity).
  assert (Hl : well_keyed two_runs.1.2).
  { split.
    - lazymatch goal with |- ?P => apply (@bool_decide_unpack P _) end.
      vm_compute. exact I.
    - lazymatch goal with |- ?P => apply (@bool_decide_unpack P _) end.
      vm_compute. exact I. }
  split; [vm_compute; reflexivity|].
  split; [vm_compute; reflexivity|].
  exact (deleted_run_is_not_listed platform alice
           two_runs.1.2 res.1.2 two_runs.2 res.2
           created_id "Test run and repository deleted successfully"
           Hl Hroute).
Defined.

(** ** The content of a blob *)

(** What [commitFiles] sends as the content of a blob is the base64 text
    of [Buffer.from(content)]: read back, it gives the UTF-8 bytes of the
    file's content, and the content itself when that holds no unpaired
    surrogate.  Two contents give the same blob exactly when they have the
    same UTF-8 bytes, as two contents that differ in an unpaired surrogate
    have. *)
Theorem blob_content_reads_back (s s' : string) :
  b64_decode (base64 s) = Buffer_from s
  /\ (base64 s = base64 s' <-> Buffer_from s = Buffer_from s')
  /\ (Buffer_from s = bytes_of s -> unbase64 (base64 s) = s).
Proof.
  split_and!.
  - apply b64_decode_base64.
  - split; intros Heq.
    + by rewrite <- (b64_decode_base64 s), <- (b64_decode_base64 s'), Heq.
    + unfold base64. by rewrite Heq.
  - intros Hs. unfold unbase64. rewrite b64_decode_base64, Hs.
    unfold bytes_of. rewrite map_map.
    rewrite (map_ext _ (fun c => c)) by apply ascii_N_embedding.
    rewrite map_id. apply string_of_list_ascii_of_string.
Qed.

Lemma blob_content_reads_back_witness :
  base64 high_surrogate = base64 other_surrogate
  /\ high_surrogate <> other_surrogate
  /\ base64 high_surrogate = "77+9"
  /\ unbase64 (base64 "print(1)") = "print(1)".
Proof.
  assert (H1 : Buffer_from high_surrogate = Buffer_from other_surrogate)
    by (vm_compute; reflexivity).
  assert (H2 : Buffer_from "print(1)" = bytes_of "print(1)")
    by (vm_compute; reflexivity).
  split; [exact (proj2 (proj1 (proj2
                   (blob_content_reads_back high_surrogate other_surrogate)))
                   H1)|].
  split; [discriminate|].
  split; [vm_compute; reflexivity|].
  exact (proj2 (proj2 (blob_content_reads_back "print(1)" "")) H2).
Defined.
